(** * A shallow embedding of the retrieval engine of the mental-health
      chatbot ([models/embeddings.py], [utils/rag.py]).

    Conventions of the embedding.
    - Python [str] is [string]; the character-class functions ([strip],
      [lower], [title]) are the ASCII fragment of the Python ones.
    - Python [int] is [Z]; [len] returns a [Z].
    - numpy/Python floats are idealised as exact rationals ([Qc]): no
      rounding, no NaN.  A vector is a list of them.
    - A metadata [dict] is a [gmap string pyval].
    - An exception is a value of [exn]; code that may raise returns a
      [res]; a [try ... except Exception] is a [match] on it.
    - The OpenAI embedding provider, the langchain text splitter and the
      counselor directory file are the environment [Env]; the FAISS flat
      index is modelled by [Faiss.IndexFlatL2]; the persisted snapshot is
      the [Disk]. *)

From Stdlib Require Import ZArith QArith Qcanon String Ascii List Bool Lia.
From stdpp Require Import base decidable option list strings gmap numbers fin_maps pretty sorting.

Open Scope string_scope.
Open Scope list_scope.
Open Scope Z_scope.

(** ** Exceptions *)

Inductive exn : Type :=
  | ValueError | AssertionError | IndexError | AttributeError | KeyError.

Inductive res (A : Type) : Type :=
  | Ret (a : A)
  | Raise (e : exn).
Arguments Ret {A} a.
Arguments Raise {A} e.

Definition bind {A B : Type} (m : res A) (k : A -> res B) : res B :=
  match m with
  | Ret a => k a
  | Raise e => Raise e
  end.

Notation "'let!' x ':=' m 'in' k" := (bind m (fun x => k))
  (at level 10, x name, m at level 200, k at level 200).

(** ** Python built-ins on strings *)

Module Py.

Definition code (c : ascii) : N := N_of_ascii c.

Definition len (s : string) : Z := Z.of_nat (String.length s).

(** [str.isspace] on one ASCII character: TAB, LF, VT, FF, CR, FS, GS, RS,
    US and SPACE. *)
Definition isspace (c : ascii) : bool :=
  let n := code c in
  ((9 <=? n) && (n <=? 13) || (28 <=? n) && (n <=? 32))%N.

Definition isupper (c : ascii) : bool :=
  let n := code c in ((65 <=? n) && (n <=? 90))%N.

Definition islower (c : ascii) : bool :=
  let n := code c in ((97 <=? n) && (n <=? 122))%N.

Definition iscased (c : ascii) : bool := isupper c || islower c.

Definition to_lower (c : ascii) : ascii :=
  if isupper c then ascii_of_N (code c + 32) else c.

Definition to_upper (c : ascii) : ascii :=
  if islower c then ascii_of_N (code c - 32) else c.

Fixpoint smap (f : ascii -> ascii) (s : string) : string :=
  match s with
  | EmptyString => EmptyString
  | String c s' => String (f c) (smap f s')
  end.

(** [s.lower()] *)
Definition lower (s : string) : string := smap to_lower s.

(** [s.replace(old, new)] for one-character [old] and [new]. *)
Definition replace (old new : ascii) (s : string) : string :=
  smap (fun c => if Ascii.eqb c old then new else c) s.

(** [s.title()]: a cased character is upper-cased when the character before
    it is not cased, and lower-cased otherwise. *)
Fixpoint title_from (previous_is_cased : bool) (s : string) : string :=
  match s with
  | EmptyString => EmptyString
  | String c s' =>
      String (if previous_is_cased then to_lower c else to_upper c)
             (title_from (iscased c) s')
  end.

Definition title (s : string) : string := title_from false s.

Fixpoint lstrip (s : string) : string :=
  match s with
  | EmptyString => EmptyString
  | String c s' => if isspace c then lstrip s' else s
  end.

Fixpoint rstrip (s : string) : string :=
  match s with
  | EmptyString => EmptyString
  | String c s' =>
      match rstrip s' with
      | EmptyString => if isspace c then EmptyString else String c EmptyString
      | r => String c r
      end
  end.

(** [s.strip()] *)
Definition strip (s : string) : string := rstrip (lstrip s).

(** [needle in hay] *)
Fixpoint contains (needle hay : string) : bool :=
  String.prefix needle hay ||
  match hay with
  | EmptyString => false
  | String _ hay' => contains needle hay'
  end.

(** [s[:n]] for a non-negative [n]. *)
Fixpoint take (n : nat) (s : string) : string :=
  match n, s with
  | O, _ => EmptyString
  | S _, EmptyString => EmptyString
  | S n', String c s' => String c (take n' s')
  end.

(** [sep.join(parts)] *)
Fixpoint join (sep : string) (parts : list string) : string :=
  match parts with
  | [] => EmptyString
  | [p] => p
  | p :: ps => p +:+ sep +:+ join sep ps
  end.

(** Truth value of a string: the empty string is false. *)
Definition nonempty (s : string) : bool :=
  match s with EmptyString => false | _ => true end.

Definition LF : string := String (ascii_of_N 10) EmptyString.

End Py.

(** ** Python values stored in metadata dictionaries *)

Inductive pyval : Type :=
  | VStr (s : string)
  | VInt (n : Z)
  | VList (l : list string).

#[global] Instance pyval_eq_dec : EqDecision pyval.
Proof. solve_decision. Defined.

Module PyVal.

Definition hex_digit (n : N) : ascii :=
  ascii_of_N (if (n <? 10)%N then 48 + n else 87 + n).

(** One character of [repr] of a string quoted with [q]. *)
Definition repr_char (q : ascii) (c : ascii) : string :=
  let n := Py.code c in
  let bs := ascii_of_N 92 in
  if Ascii.eqb c q || Ascii.eqb c bs then String bs (String c EmptyString)
  else if (n =? 9)%N then String bs "t"
  else if (n =? 10)%N then String bs "n"
  else if (n =? 13)%N then String bs "r"
  else if ((n <? 32) || (n =? 127))%N
       then String bs (String "x" (String (hex_digit (n / 16)) (String (hex_digit (n mod 16)) EmptyString)))
  else String c EmptyString.

Fixpoint repr_chars (q : ascii) (s : string) : string :=
  match s with
  | EmptyString => EmptyString
  | String c s' => repr_char q c +:+ repr_chars q s'
  end.

Definition squote : ascii := ascii_of_N 39.
Definition dquote : ascii := ascii_of_N 34.

(** [repr(s)]: single quotes, unless the string has a single quote and no
    double quote. *)
Definition repr_str (s : string) : string :=
  let has c := Py.contains (String c EmptyString) s in
  let q := if has squote && negb (has dquote) then dquote else squote in
  String q (repr_chars q s +:+ String q EmptyString).

(** [str(v)], as an f-string formats a value. *)
Definition str (v : pyval) : string :=
  match v with
  | VStr s => s
  | VInt n => pretty n
  | VList l => "[" +:+ Py.join ", " (map repr_str l) +:+ "]"
  end.

(** Truth value of [d.get(key)]: a missing key gives [None]. *)
Definition truthy (o : option pyval) : bool :=
  match o with
  | None => false
  | Some (VStr s) => Py.nonempty s
  | Some (VInt n) => negb (n =? 0)
  | Some (VList l) => match l with [] => false | _ => true end
  end.

End PyVal.

(** ** Numbers and vectors *)

Definition vec : Type := list Qc.

Definition num_ltb (a b : Qc) : bool := bool_decide (a < b)%Qc.
Definition num_leb (a b : Qc) : bool := bool_decide (a <= b)%Qc.

(** [np.zeros(n)] and [np.any(v)] *)
Definition np_zeros (n : nat) : vec := replicate n 0%Qc.
Definition np_any (v : vec) : bool := existsb (fun x => negb (bool_decide (x = 0%Qc))) v.

(** ** Stable sorting

    [list.sort] and the ordering of the hits of a flat index are both
    stable: [stable_sort before l] orders [l] so that [y] precedes [x]
    whenever [before y x], and keeps the original order otherwise. *)

Section StableSort.
Context {A : Type} (before : A -> A -> bool).

Fixpoint insert_sorted (x : A) (l : list A) : list A :=
  match l with
  | [] => [x]
  | y :: l' => if before y x then y :: insert_sorted x l' else x :: l
  end.

Definition stable_sort (l : list A) : list A := fold_right insert_sorted [] l.
End StableSort.

(** ** The FAISS flat L2 index ([faiss.IndexFlatL2]) *)

Module Faiss.

Record IndexFlatL2 : Type := { d : nat; xb : list vec }.

Definition new (dim : nat) : IndexFlatL2 := {| d := dim; xb := [] |}.

Definition ntotal (i : IndexFlatL2) : nat := length (xb i).

(** [index.add(np.array([v]))]: the wrapper asserts the dimension. *)
Definition add (i : IndexFlatL2) (v : vec) : res IndexFlatL2 :=
  if negb (length v =? d i)%nat then Raise AssertionError
  else Ret {| d := d i; xb := xb i ++ [v] |}.

(** Squared Euclidean distance. *)
Definition l2_sqr (x y : vec) : Qc :=
  fold_right Qcplus 0%Qc (zip_with (fun a b => (a - b) * (a - b))%Qc x y).

(** Distance reported for a missing neighbour (the largest float32). *)
Definition FLT_MAX : Qc := Qc_of_Z 340282346638528859811704183484516925440.

(** [index.search(np.array([x]), k)]: the wrapper asserts the dimension and
    [k > 0]; the [k] nearest stored vectors by ascending distance, equal
    distances by ascending label, padded with label [-1]. The result is the
    row [zip(distances[0], indices[0])]. *)
Definition search (i : IndexFlatL2) (x : vec) (k : Z) : res (list (Qc * Z)) :=
  if negb (length x =? d i)%nat then Raise AssertionError
  else if negb (0 <? k) then Raise AssertionError
  else
    let scored := imap (fun j y => (l2_sqr x y, Z.of_nat j)) (xb i) in
    let nearest := stable_sort (fun a b => num_ltb (fst a) (fst b)) scored in
    let best := firstn (Z.to_nat k) nearest in
    Ret (best ++ replicate (Z.to_nat k - length best) (FLT_MAX, -1)).

End Faiss.

(** ** Data model *)

Abbreviation Metadata := (gmap string pyval).

(** A document handed to [add_documents]: a dict whose keys ['content'] and
    ['metadata'] may be missing. *)
Record Document : Type := { content : option string; doc_metadata : option Metadata }.

(** One search result: the dict with keys ['text'], ['metadata'],
    ['similarity'] and ['distance']. *)
Record SearchResult : Type :=
  { r_text : string; r_metadata : Metadata; r_similarity : Qc; r_distance : Qc }.

#[global] Instance SearchResult_eq_dec : EqDecision SearchResult.
Proof. solve_decision. Defined.

Record EmbeddingModel : Type :=
  { index : Faiss.IndexFlatL2;
    texts : list string;
    metadata : list Metadata;
    dimension : nat }.

(** The two files under [persist_path]. [data.pkl] holds a dict whose keys
    are read with [data.get]. *)
Record Pickle : Type :=
  { p_texts : option (list string);
    p_metadata : option (list Metadata);
    p_dimension : option nat }.

Inductive Disk : Type :=
  | NoSnapshot                                  (* one of the two files is missing *)
  | Corrupt                                     (* reading a file raises *)
  | Snapshot (i : Faiss.IndexFlatL2) (data : Pickle).

(** An entry of [resources/counselors.json]. *)
Record Counselor : Type :=
  { c_name : string; c_email : string; c_phone : string; c_location : string }.
Record CounselorEntry : Type := { counselor : Counselor; programs : list string }.

Inductive File (A : Type) : Type :=
  | Missing                                     (* [os.path.exists] is false *)
  | Malformed                                   (* reading or using it raises *)
  | Parsed (a : A).
Arguments Missing {A}.
Arguments Malformed {A}.
Arguments Parsed {A} a.

(** The collaborators outside the repository. *)
Record Env : Type :=
  { api_key : bool;                             (* OPENAI_API_KEY is set *)
    embed_query : string -> option vec;         (* [None]: the provider call raises *)
    split_text : string -> list string;         (* RecursiveCharacterTextSplitter *)
    counselors_json : File (list CounselorEntry) }.

(** ** [models/embeddings.py]: class [EmbeddingModel] *)

Section Embeddings.
Context (env : Env).

Definition blank (text : string) : bool :=
  negb (Py.nonempty text) || negb (Py.nonempty (Py.strip text)).

Definition embed (m : EmbeddingModel) (text : string) : vec :=
  if blank text then np_zeros (dimension m)
  else match embed_query env (Py.strip text) with
       | Some embedding => embedding
       | None => np_zeros (dimension m)
       end.

Definition add_text (m : EmbeddingModel) (text : string) (md : option Metadata)
  : EmbeddingModel :=
  if blank text then m
  else
    let v := embed m (Py.strip text) in
    if np_any v then
      match Faiss.add (index m) v with
      | Ret index' =>
          {| index := index';
             texts := texts m ++ [Py.strip text];
             metadata := metadata m ++ [default ∅ md];
             dimension := dimension m |}
      | Raise _ => m
      end
    else m.

Definition chunk_metadata (md : Metadata) (i total : Z) : Metadata :=
  <["total_chunks" := VInt total]> (<["chunk_id" := VInt i]> md).

Definition add_chunks (m : EmbeddingModel) (md : Metadata) (chunks : list string)
  : EmbeddingModel :=
  fold_left
    (fun m ic => add_text m (snd ic)
                   (Some (chunk_metadata md (fst ic) (Z.of_nat (length chunks)))))
    (imap (fun i chunk => (Z.of_nat i, chunk)) chunks) m.

Definition add_document (m : EmbeddingModel) (doc : Document) : EmbeddingModel :=
  let content := default "" (content doc) in
  let md := default ∅ (doc_metadata doc) in
  if Py.nonempty content then add_chunks m md (split_text env content) else m.

Definition add_documents (m : EmbeddingModel) (documents : list Document)
  : EmbeddingModel :=
  fold_left add_document documents m.

(** [max(0, 1 - (distance / 4.0))] *)
Definition similarity_of (distance : Qc) : Qc :=
  let s := (1 - distance / Qc_of_Z 4)%Qc in
  if num_ltb 0%Qc s then s else 0%Qc.

(** The loop over [zip(distances[0], indices[0])]. *)
Fixpoint scan_hits (m : EmbeddingModel) (score_threshold : Qc)
    (hits : list (Qc * Z)) (results : list SearchResult) : res (list SearchResult) :=
  match hits with
  | [] => Ret results
  | (distance, idx) :: hits' =>
      if (idx <? Z.of_nat (length (texts m))) && (0 <=? idx) then
        let similarity := similarity_of distance in
        if num_leb score_threshold similarity then
          match texts m !! Z.to_nat idx, metadata m !! Z.to_nat idx with
          | Some t, Some md =>
              scan_hits m score_threshold hits'
                (results ++ [{| r_text := t; r_metadata := md;
                                r_similarity := similarity; r_distance := distance |}])
          | _, _ => Raise IndexError
          end
        else scan_hits m score_threshold hits' results
      else scan_hits m score_threshold hits' results
  end.

(** [results.sort(key=lambda x: x['similarity'], reverse=True)] *)
Definition sort_by_similarity (results : list SearchResult) : list SearchResult :=
  stable_sort (fun y x => num_ltb (r_similarity x) (r_similarity y)) results.

Definition search_try (m : EmbeddingModel) (query : string) (k : Z)
    (score_threshold : Qc) : res (list SearchResult) :=
  if negb (Py.nonempty (Py.strip query)) || (length (texts m) =? 0)%nat then Ret []
  else
    let v := embed m (Py.strip query) in
    if negb (np_any v) then Ret []
    else
      let! hits := Faiss.search (index m) v (Z.min k (Z.of_nat (length (texts m)))) in
      let! results := scan_hits m score_threshold hits [] in
      Ret (sort_by_similarity results).

Definition search (m : EmbeddingModel) (query : string) (k : Z)
    (score_threshold : Qc) : list SearchResult :=
  match search_try m query k score_threshold with
  | Ret results => results
  | Raise _ => []
  end.

(** [save_index]: both files are written from the current state. *)
Definition save_index (m : EmbeddingModel) (disk : Disk) : Disk :=
  Snapshot (index m)
    {| p_texts := Some (texts m);
       p_metadata := Some (metadata m);
       p_dimension := Some (dimension m) |}.

Definition _load_index (m : EmbeddingModel) (disk : Disk) : EmbeddingModel :=
  match disk with
  | Snapshot i data =>
      {| index := i;
         texts := default [] (p_texts data);
         metadata := default [] (p_metadata data);
         dimension := default (dimension m) (p_dimension data) |}
  | NoSnapshot => m
  | Corrupt =>
      {| index := Faiss.new (dimension m); texts := []; metadata := [];
         dimension := dimension m |}
  end.

Definition clear_index (m : EmbeddingModel) : EmbeddingModel :=
  {| index := Faiss.new (dimension m); texts := []; metadata := [];
     dimension := dimension m |}.

(** [EmbeddingModel.__init__]: raises without an API key. *)
Definition EmbeddingModel_init (disk : Disk) : res EmbeddingModel :=
  if negb (api_key env) then Raise ValueError
  else
    Ret (_load_index
           {| index := Faiss.new 1536; texts := []; metadata := []; dimension := 1536 |}
           disk).

End Embeddings.

(** ** [utils/rag.py]: class [MentalHealthRAG] *)

(** The documents of [_load_knowledge_base]. *)

Definition doc_counseling_services : Document :=
  {| content := Some "
                    University Counseling Services at Christ University are available to support students with mental health concerns.
                    Services include individual counseling, group therapy, crisis intervention, and wellness workshops.
                    All counseling services are free and confidential for enrolled students.
                    Hours: Monday to Friday, 9 AM to 5 PM
                    Emergency support is available 24/7 through campus security.
                    ";
     doc_metadata := Some (list_to_map [("type", VStr "service_info"); ("category", VStr "counseling_services"); ("source", VStr "university_handbook")]) |}.

Definition doc_depression : Document :=
  {| content := Some "
                    Common signs of depression include persistent sadness, loss of interest in activities,
                    changes in appetite or sleep patterns, fatigue, difficulty concentrating, and feelings of worthlessness.
                    If you experience these symptoms for more than two weeks, it's important to seek professional help.
                    Depression is a treatable medical condition, not a personal weakness.
                    ";
     doc_metadata := Some (list_to_map [("type", VStr "educational"); ("category", VStr "depression"); ("source", VStr "mental_health_guide")]) |}.

Definition doc_anxiety : Document :=
  {| content := Some "
                    Anxiety disorders are characterized by excessive worry, fear, or nervousness that interferes with daily activities.
                    Symptoms may include rapid heartbeat, sweating, trembling, difficulty breathing, and avoidance of situations.
                    Coping strategies include deep breathing exercises, mindfulness meditation, regular exercise, and professional therapy.
                    Cognitive-behavioral therapy (CBT) is particularly effective for anxiety disorders.
                    ";
     doc_metadata := Some (list_to_map [("type", VStr "educational"); ("category", VStr "anxiety"); ("source", VStr "mental_health_guide")]) |}.

Definition doc_emergency : Document :=
  {| content := Some "
                    Crisis resources for students in immediate danger:
                    - National Suicide Prevention Lifeline: 988 (24/7, free, confidential)
                    - Crisis Text Line: Text HOME to 741741
                    - Emergency services: 911 or campus security
                    - Christ University Campus Security: Available 24/7
                    If you are having thoughts of self-harm, reach out immediately. You are not alone.
                    ";
     doc_metadata := Some (list_to_map [("type", VStr "crisis_resource"); ("category", VStr "emergency"); ("priority", VStr "high"); ("source", VStr "crisis_guide")]) |}.

Definition doc_stress_management : Document :=
  {| content := Some "
                    Stress management techniques for students:
                    1. Time management and organization
                    2. Regular exercise and physical activity
                    3. Adequate sleep (7-9 hours per night)
                    4. Healthy eating habits
                    5. Mindfulness and meditation practices
                    6. Social connections and support systems
                    7. Setting realistic goals and expectations
                    8. Taking regular breaks and practicing self-care
                    ";
     doc_metadata := Some (list_to_map [("type", VStr "coping_strategies"); ("category", VStr "stress_management"); ("source", VStr "wellness_guide")]) |}.

Definition doc_academic_stress : Document :=
  {| content := Some "
                    Academic stress is common among university students and can manifest as:
                    - Overwhelming feelings about coursework
                    - Procrastination and avoidance
                    - Perfectionism and fear of failure
                    - Difficulty concentrating or making decisions
                    - Physical symptoms like headaches or fatigue
                    Resources include study skills workshops, time management training, and academic counseling.
                    ";
     doc_metadata := Some (list_to_map [("type", VStr "educational"); ("category", VStr "academic_stress"); ("source", VStr "student_success_guide")]) |}.

Definition doc_resilience : Document :=
  {| content := Some "
                    Building resilience and emotional wellbeing:
                    - Develop a growth mindset
                    - Practice gratitude and positive thinking
                    - Build strong social connections
                    - Engage in meaningful activities and hobbies
                    - Learn healthy coping mechanisms
                    - Seek help when needed - it's a sign of strength, not weakness
                    ";
     doc_metadata := Some (list_to_map [("type", VStr "wellness_tips"); ("category", VStr "resilience"); ("source", VStr "wellness_guide")]) |}.

Definition doc_crisis_indicators : Document :=
  {| content := Some "
                    Warning signs that indicate you should seek immediate professional help:
                    - Persistent thoughts of death or suicide
                    - Severe depression that interferes with daily functioning
                    - Panic attacks or severe anxiety
                    - Substance abuse or harmful behaviors
                    - Inability to cope with daily stressors
                    - Significant changes in eating or sleeping patterns
                    - Withdrawal from friends, family, and activities
                    ";
     doc_metadata := Some (list_to_map [("type", VStr "warning_signs"); ("category", VStr "crisis_indicators"); ("priority", VStr "high"); ("source", VStr "crisis_guide")]) |}.

Definition static_docs : list Document :=
  [doc_counseling_services;
   doc_depression;
   doc_anxiety;
   doc_emergency;
   doc_stress_management;
   doc_academic_stress;
   doc_resilience;
   doc_crisis_indicators].


(** The document synthesised for one entry of the counselor directory. *)
Definition counselor_doc (entry : CounselorEntry) : Document :=
  let c := counselor entry in
  {| content := Some ("
                    Counselor: " +:+ c_name c +:+ "
                    Email: " +:+ c_email c +:+ "
                    Phone: " +:+ c_phone c +:+ "
                    Location: " +:+ c_location c +:+ "
                    Programs served: " +:+ Py.join ", " (programs entry) +:+ "

                    This counselor provides mental health support and counseling services
                    for students in the specified academic programs.
                    ");
     doc_metadata :=
       Some (list_to_map [("type", VStr "counselor_info"); ("category", VStr "staff");
                          ("counselor_name", VStr (c_name c));
                          ("programs", VList (programs entry));
                          ("source", VStr "counselors_directory")]) |}.

(** The two strings of [_get_default_context]. *)

Definition CRISIS_CONTEXT : string :=
  "
            [Crisis Resource] If you are in immediate danger or having thoughts of self-harm:
            - Call 988 (National Suicide Prevention Lifeline) - available 24/7, free and confidential
            - Text HOME to 741741 (Crisis Text Line)
            - Call 911 or go to your nearest emergency room
            - Contact campus security immediately

            You are not alone, and help is available. These feelings can be temporary, and professional help can make a difference.
            ".

Definition GENERAL_CONTEXT : string :=
  "
        [General Resource] Christ University provides comprehensive mental health support services.
        All counseling services are free and confidential for students.
        Contact your assigned counselor or visit the counseling office for support.
        Remember: Seeking help is a sign of strength, not weakness.
        ".


Record MentalHealthRAG : Type :=
  { embedding_model : EmbeddingModel; knowledge_loaded : bool }.

Section Rag.
Context (env : Env).

(** The list [mental_health_docs] built before [add_documents]; reading the
    counselor directory may raise. *)
Definition mental_health_docs : res (list Document) :=
  match counselors_json env with
  | Missing => Ret static_docs
  | Malformed => Raise KeyError
  | Parsed counselors_data => Ret (static_docs ++ map counselor_doc counselors_data)
  end.

Definition _load_knowledge_base (rag : MentalHealthRAG) : MentalHealthRAG :=
  match mental_health_docs with
  | Ret docs =>
      {| embedding_model := add_documents env (embedding_model rag) docs;
         knowledge_loaded := true |}
  | Raise _ =>
      {| embedding_model := embedding_model rag; knowledge_loaded := false |}
  end.

(** [MentalHealthRAG.__init__] *)
Definition MentalHealthRAG_init (disk : Disk) : res MentalHealthRAG :=
  let! em := EmbeddingModel_init env disk in
  Ret (_load_knowledge_base {| embedding_model := em; knowledge_loaded := false |}).

(** [any(keyword in query.lower() for keyword in keywords)] *)
Definition any_keyword (keywords : list string) (query : string) : bool :=
  existsb (fun keyword => Py.contains keyword (Py.lower query)) keywords.

Definition _get_default_context (query : string) : string :=
  let crisis_keywords :=
    ["suicide"; "crisis"; "emergency"; "harm"; "danger"; "die"; "kill"] in
  if any_keyword crisis_keywords query then CRISIS_CONTEXT else GENERAL_CONTEXT.

(** The header [source_info] of a block; [.replace] on a non-string type
    label raises. *)
Definition source_info (md : Metadata) : res string :=
  let! type_label :=
    match md !! "type" with
    | None => Ret "info"
    | Some (VStr s) => Ret s
    | Some _ => Raise AttributeError
    end in
  let header := "[" +:+ Py.title (Py.replace "_" " " type_label) +:+ "]" in
  Ret (match md !! "source" with
       | Some v => if PyVal.truthy (Some v) then header +:+ " (" +:+ PyVal.str v +:+ ")"
                   else header
       | None => header
       end).

Definition is_crisis (query : string) (r : SearchResult) : bool :=
  bool_decide (r_metadata r !! "priority" = Some (VStr "high"))
  || any_keyword ["suicide"; "crisis"; "emergency"; "harm"; "danger"] query.

(** The packing loop over [crisis_results + other_results], from the state
    ([context_parts], [current_length]). *)
Fixpoint pack (context_length : Z) (results : list SearchResult)
    (context_parts : list string) (current_length : Z) : res (list string) :=
  match results with
  | [] => Ret context_parts
  | result :: rest =>
      if context_length <=? current_length then Ret context_parts
      else
        let text := Py.strip (r_text result) in
        let! info := source_info (r_metadata result) in
        let formatted_text := info +:+ Py.LF +:+ text in
        if current_length + Py.len formatted_text <=? context_length then
          pack context_length rest (context_parts ++ [formatted_text])
               (current_length + Py.len formatted_text)
        else
          let remaining_space := context_length - current_length - Py.len info - 10 in
          if 100 <? remaining_space then
            let truncated_text := Py.take (Z.to_nat remaining_space) text +:+ "..." in
            Ret (context_parts ++ [info +:+ Py.LF +:+ truncated_text])
          else Ret context_parts
  end.

Definition SEPARATOR : string := Py.LF +:+ Py.LF +:+ "---" +:+ Py.LF +:+ Py.LF.

Definition score_threshold : Qc := Q2Qc (2 # 10).

(** The body of the [try] of [retrieve_knowledge], after the lazy load. *)
Definition retrieve_try (rag : MentalHealthRAG) (query : string)
    (max_results context_length : Z) : res string :=
  let results := search env (embedding_model rag) query max_results score_threshold in
  match results with
  | [] => Ret (_get_default_context query)
  | _ =>
      let crisis_results := filter (fun r => is_crisis query r = true) results in
      let other_results := filter (fun r => r ∉ crisis_results) results in
      let! context_parts := pack context_length (crisis_results ++ other_results) [] 0 in
      Ret (Py.join SEPARATOR context_parts)
  end.

Definition lazy_load (rag : MentalHealthRAG) : MentalHealthRAG :=
  if knowledge_loaded rag then rag else _load_knowledge_base rag.

Definition retrieve_knowledge (rag : MentalHealthRAG) (query : string)
    (max_results context_length : Z) : string * MentalHealthRAG :=
  let rag' := lazy_load rag in
  match retrieve_try rag' query max_results context_length with
  | Ret context => (context, rag')
  | Raise _ => (_get_default_context query, rag')
  end.

Definition add_custom_knowledge (rag : MentalHealthRAG) (content : string)
    (md : option Metadata) : MentalHealthRAG :=
  let md' := match md with
             | None => list_to_map [("type", VStr "custom"); ("source", VStr "user_added")]
             | Some given => given
             end in
  {| embedding_model := add_text env (embedding_model rag) content (Some md');
     knowledge_loaded := knowledge_loaded rag |}.

Definition save_knowledge_base (rag : MentalHealthRAG) (disk : Disk) : Disk :=
  save_index (embedding_model rag) disk.

(** The module-level [retrieve_knowledge(query, embedding_model=None,
    max_context_length=1500)] on the global instance. *)
Definition module_retrieve_knowledge (rag : MentalHealthRAG) (query : string)
    (max_context_length : Z) : string * MentalHealthRAG :=
  retrieve_knowledge rag query 3 max_context_length.

End Rag.

(** ** Sequences of store operations *)

Inductive StoreOp : Type :=
  | OpAddText (text : string) (md : option Metadata)
  | OpAddDocuments (documents : list Document)
  | OpLoadIndex
  | OpClearIndex
  | OpSaveIndex.

Definition is_add (o : StoreOp) : bool :=
  match o with
  | OpAddText _ _ | OpAddDocuments _ => true
  | _ => false
  end.

Section Runs.
Context (env : Env).

Definition step (w : EmbeddingModel * Disk) (o : StoreOp) : EmbeddingModel * Disk :=
  let (m, disk) := w in
  match o with
  | OpAddText text md => (add_text env m text md, disk)
  | OpAddDocuments documents => (add_documents env m documents, disk)
  | OpLoadIndex => (_load_index m disk, disk)
  | OpClearIndex => (clear_index m, disk)
  | OpSaveIndex => (m, save_index m disk)
  end.

Definition run (ops : list StoreOp) (w : EmbeddingModel * Disk) : EmbeddingModel * Disk :=
  fold_left step ops w.
End Runs.

(** The invariant of the index state. *)
Definition lock_step (m : EmbeddingModel) : Prop :=
  length (texts m) = length (metadata m) /\
  length (metadata m) = Faiss.ntotal (index m).

Definition disk_lock_step (disk : Disk) : Prop :=
  match disk with
  | Snapshot i data =>
      length (default [] (p_texts data)) = length (default [] (p_metadata data)) /\
      length (default [] (p_metadata data)) = Faiss.ntotal i
  | _ => True
  end.

(** ** A test double for the collaborators

    The provider returns a 1536-dimensional vector whose first component is
    the length of the text; the splitter returns the document as one chunk;
    there is no counselor directory. *)

Definition toy_embed (s : string) : option vec :=
  Some (Qc_of_Z (Py.len s) :: Qc_of_Z 1 :: np_zeros 1534).

Definition toy_env : Env :=
  {| api_key := true;
     embed_query := toy_embed;
     split_text := fun s => [s];
     counselors_json := Missing |}.

Definition fresh_model : EmbeddingModel :=
  {| index := Faiss.new 1536; texts := []; metadata := []; dimension := 1536 |}.

(** The retriever as constructed on an empty disk. *)
Definition toy_rag : MentalHealthRAG :=
  _load_knowledge_base toy_env {| embedding_model := fresh_model; knowledge_loaded := false |}.

Definition default_custom_metadata : Metadata :=
  list_to_map [("type", VStr "custom"); ("source", VStr "user_added")].

(** [str.isspace] on a whole string, without the non-emptiness test. *)
Fixpoint whitespace_only (s : string) : bool :=
  match s with
  | EmptyString => true
  | String c s' => Py.isspace c && whitespace_only s'
  end.

(** The provider is unreachable: every call raises. *)
Definition down_env : Env :=
  {| api_key := true;
     embed_query := fun _ => None;
     split_text := fun s => [s];
     counselors_json := Missing |}.

(** The counselor directory is present but unusable. *)
Definition malformed_env : Env :=
  {| api_key := true;
     embed_query := toy_embed;
     split_text := fun s => [s];
     counselors_json := Malformed |}.

(** A retriever constructed, with the unusable directory, on a snapshot that
    an earlier run saved after adding one custom entry. *)
Definition snapshot_with_custom : Disk :=
  save_knowledge_base (add_custom_knowledge toy_env toy_rag "exam stress" None) NoSnapshot.

Definition rag_on_snapshot : MentalHealthRAG :=
  _load_knowledge_base malformed_env
    {| embedding_model := _load_index fresh_model snapshot_with_custom;
       knowledge_loaded := false |}.

(** A retriever holding a custom entry whose type label is a number. *)
Definition rag_bad_type : MentalHealthRAG :=
  add_custom_knowledge toy_env toy_rag "hello"
    (Some (list_to_map [("type", VInt 3)])).

(** The retriever after one custom entry was added with the metadata
    omitted. *)
Definition rag_with_custom : MentalHealthRAG :=
  add_custom_knowledge toy_env toy_rag "exam stress" None.

(** [p] is the block packed for the result [r]: its header, a line feed and
    the stripped text, whole or cut and followed by the ellipsis. *)
Definition is_block_of (r : SearchResult) (p : string) : Prop :=
  exists info,
    source_info (r_metadata r) = Ret info /\
    (p = info +:+ Py.LF +:+ Py.strip (r_text r) \/
     exists n, p = info +:+ Py.LF +:+ (Py.take n (Py.strip (r_text r)) +:+ "...")).

(** A retriever with a normal entry and a high-priority entry; for the
    query ["xyz"] the normal one is the nearer. *)
Definition rag_priority : MentalHealthRAG :=
  add_custom_knowledge toy_env
    (add_custom_knowledge toy_env toy_rag "abc" None)
    "abcd"
    (Some (list_to_map [("type", VStr "crisis_resource"); ("priority", VStr "high");
                        ("source", VStr "crisis_guide")])).

(** A retriever with sixteen one-character entries with empty metadata. *)
Definition short_texts : list string :=
  ["a"; "b"; "c"; "d"; "e"; "f"; "g"; "h"; "i"; "j"; "k"; "l"; "m"; "n"; "o"; "p"].

Definition rag_short : MentalHealthRAG :=
  fold_left (fun rag t => add_custom_knowledge toy_env rag t (Some ∅)) short_texts toy_rag.

(** [m'] holds the entries of [m], unchanged and in place, and maybe more. *)
Definition extends (m m' : EmbeddingModel) : Prop :=
  texts m `prefix_of` texts m' /\
  metadata m `prefix_of` metadata m' /\
  Faiss.xb (index m) `prefix_of` Faiss.xb (index m').

Definition sum_len (parts : list string) : Z :=
  fold_right (fun p n => Py.len p + n) 0 parts.

(** The store [m] with the vectors [vs], the texts [ts] and the metadata
    [ms] appended. *)
Definition grow (m : EmbeddingModel) (vs : list vec) (ts : list string)
    (ms : list Metadata) : EmbeddingModel :=
  {| index := {| Faiss.d := Faiss.d (index m); Faiss.xb := Faiss.xb (index m) ++ vs |};
     texts := texts m ++ ts;
     metadata := metadata m ++ ms;
     dimension := dimension m |}.

(** Two stores on which an addition behaves alike: same [dimension], same
    index dimension. *)
Definition same_shape (m1 m2 : EmbeddingModel) : Prop :=
  dimension m1 = dimension m2 /\ Faiss.d (index m1) = Faiss.d (index m2).

(** What an addition appends depends on the text and on the shape of the
    store, not on what the store holds: on two stores of the same shape it
    appends the same entries. *)
Definition grows_alike (f : EmbeddingModel -> EmbeddingModel) : Prop :=
  forall m1 m2, same_shape m1 m2 ->
    exists vs ts ms, f m1 = grow m1 vs ts ms /\ f m2 = grow m2 vs ts ms.

(** [try: body / except Exception: handler] *)
Definition try_except {A : Type} (body : res A) (handler : exn -> res A) : res A :=
  match body with
  | Ret a => Ret a
  | Raise e => handler e
  end.

(** The call of [retrieve_knowledge], its [except] handler included, as a
    computation that could raise. *)
Definition retrieve_knowledge_outcome (env : Env) (rag : MentalHealthRAG)
    (query : string) (max_results context_length : Z) : res (string * MentalHealthRAG) :=
  let rag' := lazy_load env rag in
  try_except
    (let! context := retrieve_try env rag' query max_results context_length in
     Ret (context, rag'))
    (fun _ => Ret (_get_default_context query, rag')).

(** A retriever constructed, with the unusable directory, on a snapshot
    that holds the entry whose type label is a number. *)
Definition rag_bad_type_on_snapshot : MentalHealthRAG :=
  _load_knowledge_base malformed_env
    {| embedding_model :=
         _load_index fresh_model (save_knowledge_base rag_bad_type NoSnapshot);
       knowledge_loaded := false |}.

(** ** [models/embeddings.py]: [get_relevant_context] and [get_stats] *)

(** The prefix [source_info] of [get_relevant_context]: the source when
    there is a truthy one, else the type label when there is a truthy one. *)
Definition context_label (md : Metadata) : string :=
  let type_label :=
    match md !! "type" with
    | Some v => if PyVal.truthy (Some v) then "[" +:+ PyVal.str v +:+ "] " else ""
    | None => ""
    end in
  match md !! "source" with
  | Some v => if PyVal.truthy (Some v) then "[Source: " +:+ PyVal.str v +:+ "] "
              else type_label
  | None => type_label
  end.

Definition context_block (r : SearchResult) : string :=
  context_label (r_metadata r) +:+ r_text r.

(** The loop of [get_relevant_context], from the state ([context_parts],
    [current_length]); it stops at the first block that does not fit. *)
Fixpoint pack_context (max_context_length : Z) (results : list SearchResult)
    (context_parts : list string) (current_length : Z) : list string :=
  match results with
  | [] => context_parts
  | result :: rest =>
      let formatted_text := context_block result in
      if current_length + Py.len formatted_text <=? max_context_length then
        pack_context max_context_length rest (context_parts ++ [formatted_text])
                     (current_length + Py.len formatted_text)
      else context_parts
  end.

Section RelevantContext.
Context (env : Env).

Definition get_relevant_context (m : EmbeddingModel) (query : string)
    (max_context_length : Z) : string :=
  match search env m query 5 (Q2Qc (3 # 10)) with
  | [] => ""
  | results => Py.join (Py.LF +:+ Py.LF) (pack_context max_context_length results [] 0)
  end.

End RelevantContext.

(** The dict returned by [get_stats]; the list of metadata keys is built
    from a set, so that it is a set here. *)
Record Stats : Type :=
  { total_documents : Z;
    index_size : Z;
    stats_dimension : Z;
    metadata_keys : gset string }.

Definition get_stats (m : EmbeddingModel) : Stats :=
  {| total_documents := Z.of_nat (length (texts m));
     index_size := Z.of_nat (Faiss.ntotal (index m));
     stats_dimension := Z.of_nat (dimension m);
     metadata_keys :=
       union_list (map dom (filter (fun d : Metadata => d <> ∅) (metadata m))) |}.

(** [MentalHealthRAG.get_stats] *)
Definition rag_get_stats (rag : MentalHealthRAG) : Stats :=
  get_stats (embedding_model rag).

(** ** [utils/lookup.py] *)

(** [find_counselor_by_program] over the list [COUNSELORS] read from the
    counselor directory when the module is imported. *)
Fixpoint find_counselor (counselors : list CounselorEntry) (program_name : string)
    : option Counselor :=
  match counselors with
  | [] => None
  | entry :: rest =>
      if existsb (fun prog => String.eqb (Py.lower prog) program_name) (programs entry)
      then Some (counselor entry)
      else find_counselor rest program_name
  end.

Definition find_counselor_by_program (COUNSELORS : list CounselorEntry)
    (program_name : string) : option Counselor :=
  find_counselor COUNSELORS (Py.lower (Py.strip program_name)).

(** ** Properties of the stored entries *)

(** Every stored text is non-empty and has no surrounding whitespace; every
    stored vector has a non-zero component and the dimension of the index. *)
Definition clean_store (m : EmbeddingModel) : Prop :=
  Forall (fun t => t <> "" /\ Py.strip t = t) (texts m) /\
  Forall (fun v => np_any v = true /\ length v = Faiss.d (index m))
         (Faiss.xb (index m)).

Definition clean_disk (disk : Disk) : Prop :=
  match disk with
  | Snapshot i data =>
      Forall (fun t => t <> "" /\ Py.strip t = t) (default [] (p_texts data)) /\
      Forall (fun v => np_any v = true /\ length v = Faiss.d i) (Faiss.xb i)
  | _ => True
  end.


(** A small counselor directory. *)
Definition toy_counselors : list CounselorEntry :=
  [ {| counselor := {| c_name := "Asha Rao"; c_email := "asha@example.edu";
                       c_phone := "100"; c_location := "Block A" |};
       programs := ["BSc Computer Science"; "MSc Data Analytics"] |};
    {| counselor := {| c_name := "Ben Thomas"; c_email := "ben@example.edu";
                       c_phone := "200"; c_location := "Block B" |};
       programs := ["MSc Data Analytics"; "BA English "] |} ].

(** * Properties *)

(** ** The Python built-ins on examples *)

Example title_ex : Py.title (Py.replace "_" " " "crisis_resource") = "Crisis Resource".
Proof. reflexivity. Qed.

Example title_digit_ex : Py.title "1abc dEF" = "1Abc Def".
Proof. reflexivity. Qed.

Example strip_ex : Py.strip ("  a b " +:+ Py.LF) = "a b".
Proof. reflexivity. Qed.

Example contains_ex : Py.contains "kill" (Py.lower "I want to KILL time") = true.
Proof. reflexivity. Qed.

Example repr_ex : PyVal.str (VList ["BSc"; "it's"]) = "['BSc', " +:+ String PyVal.dquote "it's" +:+ String PyVal.dquote "]".
Proof. reflexivity. Qed.


Example str_int_ex : PyVal.str (VInt (-12)) = "-12".
Proof. reflexivity. Qed.

Example source_info_ex :
  source_info (list_to_map [("type", VStr "crisis_resource"); ("source", VStr "crisis_guide")])
  = Ret "[Crisis Resource] (crisis_guide)".
Proof. reflexivity. Qed.

Example source_info_default_ex : source_info ∅ = Ret "[Info]".
Proof. reflexivity. Qed.

Example similarity_ex : similarity_of (Q2Qc (16 # 5)) = score_threshold.
Proof. apply Qc_is_canon. vm_compute. reflexivity. Qed.

Example similarity_clamped_ex : similarity_of (Qc_of_Z 9) = 0%Qc.
Proof. apply Qc_is_canon. vm_compute. reflexivity. Qed.
(** ** Fallback strings *)

Lemma any_keyword_spec (keywords : list string) (query : string) :
  any_keyword keywords query = true <->
  exists keyword, In keyword keywords /\ Py.contains keyword (Py.lower query) = true.
Proof. unfold any_keyword. apply existsb_exists. Qed.

Lemma contexts_differ : CRISIS_CONTEXT <> GENERAL_CONTEXT.
Proof. intros H. apply (f_equal String.length) in H. vm_compute in H. discriminate. Qed.

Lemma retrieve_knowledge_state env rag q k L :
  snd (retrieve_knowledge env rag q k L) = lazy_load env rag.
Proof. unfold retrieve_knowledge. now destruct (retrieve_try _ _ _ _ _). Qed.

Lemma retrieve_try_empty env rag q k L :
  search env (embedding_model rag) q k score_threshold = [] ->
  retrieve_try env rag q k L = Ret (_get_default_context q).
Proof. intros H. unfold retrieve_try. now rewrite H. Qed.

(** C5: when the search yields nothing, the answer is the crisis block
    exactly when the lower-cased query contains one of the seven keywords, and
    the general block otherwise; both are fixed non-empty strings that depend
    on the query alone. *)
Theorem fallback_on_empty_search env rag q k L :
  search env (embedding_model (lazy_load env rag)) q k score_threshold = [] ->
  let out := fst (retrieve_knowledge env rag q k L) in
  let keywords := ["suicide"; "crisis"; "emergency"; "harm"; "danger"; "die"; "kill"] in
  out = _get_default_context q /\
  (out = CRISIS_CONTEXT <->
     exists keyword, In keyword keywords /\ Py.contains keyword (Py.lower q) = true) /\
  (out = GENERAL_CONTEXT <->
     ~ exists keyword, In keyword keywords /\ Py.contains keyword (Py.lower q) = true) /\
  CRISIS_CONTEXT <> "" /\ GENERAL_CONTEXT <> "".
Proof.
  intros Hempty out keywords.
  assert (Hout : out = _get_default_context q).
  { unfold out, retrieve_knowledge. now rewrite (retrieve_try_empty _ _ _ _ _ Hempty). }
  split; [exact Hout|].
  rewrite Hout. unfold _get_default_context. fold keywords.
  rewrite <- any_keyword_spec.
  pose proof contexts_differ as Hne.
  destruct (any_keyword keywords q); repeat split; try congruence; try discriminate.
Qed.

Lemma fallback_on_empty_search_witness :
  fst (retrieve_knowledge toy_env toy_rag "I want to kill myself" 3 1500) = CRISIS_CONTEXT /\
  fst (retrieve_knowledge toy_env toy_rag "asdkjasdkj" 3 1500) = GENERAL_CONTEXT.
Proof.
  split.
  - apply (fallback_on_empty_search toy_env toy_rag "I want to kill myself" 3 1500);
      [vm_compute; reflexivity|].
    exists "kill". split; [simpl; tauto | reflexivity].
  - apply (fallback_on_empty_search toy_env toy_rag "asdkjasdkj" 3 1500);
      [vm_compute; reflexivity|].
    intros [kw [Hin Hc]]. simpl in Hin.
    repeat (destruct Hin as [<-|Hin]; [vm_compute in Hc; discriminate|]). exact Hin.
Defined.

(** ** Additions that are skipped *)

Lemma lstrip_whitespace_only s : whitespace_only s = true -> Py.lstrip s = "".
Proof.
  induction s as [|c s IH]; simpl; [reflexivity|].
  intros [Hc Hs]%andb_prop. rewrite Hc. auto.
Qed.

Lemma blank_whitespace_only s : whitespace_only s = true -> blank s = true.
Proof.
  intros H. unfold blank, Py.strip. rewrite (lstrip_whitespace_only _ H). simpl.
  apply orb_true_r.
Qed.

Lemma np_any_false (v : vec) : Forall (fun x => x = 0%Qc) v -> np_any v = false.
Proof.
  induction 1 as [|x v Hx _ IH]; simpl; [reflexivity|].
  rewrite IH, orb_false_r. subst x. reflexivity.
Qed.

Lemma np_zeros_all_zero n : Forall (fun x => x = 0%Qc) (np_zeros n).
Proof. unfold np_zeros. induction n; simpl; constructor; auto. Qed.

(** C8: adding an empty text, a whitespace-only text, or a text whose
    embedding is all zero leaves the whole store as it was. *)
Theorem add_text_skips env m text md :
  text = "" \/ whitespace_only text = true \/
  Forall (fun x => x = 0%Qc) (embed env m (Py.strip text)) ->
  add_text env m text md = m /\
  Faiss.ntotal (index (add_text env m text md)) = Faiss.ntotal (index m).
Proof.
  intros H.
  assert (Heq : add_text env m text md = m); [|now rewrite Heq].
  unfold add_text. destruct H as [-> | [H | H]].
  - reflexivity.
  - now rewrite (blank_whitespace_only _ H).
  - destruct (blank text); [reflexivity|]. now rewrite (np_any_false _ H).
Qed.

Lemma add_text_skips_witness :
  let m := embedding_model toy_rag in
  Faiss.ntotal (index (add_text toy_env m "" None)) = Faiss.ntotal (index m) /\
  Faiss.ntotal (index (add_text toy_env m "   " None)) = Faiss.ntotal (index m) /\
  add_text down_env m "exam stress" None = m.
Proof.
  intros m. split; [|split].
  - apply (add_text_skips toy_env m "" None). left. reflexivity.
  - apply (add_text_skips toy_env m "   " None). right. left. reflexivity.
  - apply (add_text_skips down_env m "exam stress" None). right. right.
    apply np_zeros_all_zero.
Defined.

(** ** Custom knowledge *)

(** C10: with the metadata omitted, the entry is stored with the map
    [{'type': 'custom', 'source': 'user_added'}], which is not the empty map
    and whose block header carries the label and the source. *)
Theorem add_custom_knowledge_default_metadata env rag content :
  let m := embedding_model rag in
  let m' := embedding_model (add_custom_knowledge env rag content None) in
  blank content = false ->
  np_any (embed env m (Py.strip content)) = true ->
  length (embed env m (Py.strip content)) = Faiss.d (index m) ->
  add_custom_knowledge env rag content None
    = add_custom_knowledge env rag content (Some default_custom_metadata) /\
  texts m' = texts m ++ [Py.strip content] /\
  metadata m' = metadata m ++ [default_custom_metadata] /\
  default_custom_metadata <> ∅ /\
  source_info default_custom_metadata = Ret "[Custom] (user_added)".
Proof.
  intros m m' Hb Hany Hlen. split; [reflexivity|].
  unfold m', add_custom_knowledge, add_text. simpl. fold m.
  rewrite Hb, Hany. unfold Faiss.add. rewrite Hlen, Nat.eqb_refl. simpl.
  repeat split.
  intros H. apply (f_equal (fun d : Metadata => d !! "type")) in H.
  vm_compute in H. discriminate.
Qed.

Lemma add_custom_knowledge_default_metadata_witness :
  metadata (embedding_model (add_custom_knowledge toy_env toy_rag "exam stress" None))
  = metadata (embedding_model toy_rag) ++ [default_custom_metadata].
Proof.
  apply (add_custom_knowledge_default_metadata toy_env toy_rag "exam stress");
    vm_compute; reflexivity.
Defined.

(** ** Stable sorting by a rational key, largest first *)

Lemma num_ltb_true a b : num_ltb a b = true -> (a < b)%Qc.
Proof. unfold num_ltb. apply bool_decide_eq_true_1. Qed.

Lemma num_ltb_false a b : num_ltb a b = false -> (b <= a)%Qc.
Proof. unfold num_ltb. intros H%bool_decide_eq_false_1. now apply Qcnot_lt_le. Qed.

Section SortByKey.
Context {A : Type} (key : A -> Qc).

Local Abbreviation before := (fun y x : A => num_ltb (key x) (key y)).
Local Abbreviation ge := (fun x y : A => (key y <= key x)%Qc).

Lemma insert_sorted_perm x l : insert_sorted before x l ≡ₚ x :: l.
Proof.
  induction l as [|y l IH]; cbn [insert_sorted]; [reflexivity|].
  destruct (num_ltb (key x) (key y)); [|reflexivity].
  rewrite IH. apply perm_swap.
Qed.

Lemma stable_sort_perm l : stable_sort before l ≡ₚ l.
Proof.
  induction l as [|x l IH]; cbn [stable_sort fold_right]; [reflexivity|].
  rewrite insert_sorted_perm. fold (stable_sort before l). now rewrite IH.
Qed.

Lemma insert_sorted_sorted x l :
  StronglySorted ge l -> StronglySorted ge (insert_sorted before x l).
Proof.
  induction 1 as [|y l Hl IH Hy]; cbn [insert_sorted].
  - repeat constructor.
  - destruct (num_ltb (key x) (key y)) eqn:Hlt.
    + apply num_ltb_true in Hlt. constructor; [exact IH|].
      rewrite insert_sorted_perm. constructor; [|exact Hy].
      now apply Qclt_le_weak.
    + apply num_ltb_false in Hlt.
      constructor; [now constructor|].
      constructor; [exact Hlt|].
      eapply Forall_impl; [exact Hy|].
      intros z Hz. cbv beta in *. eapply Qcle_trans; eassumption.
Qed.

Lemma stable_sort_sorted l : StronglySorted ge (stable_sort before l).
Proof.
  induction l as [|x l IH]; cbn [stable_sort fold_right]; [constructor|].
  now apply insert_sorted_sorted.
Qed.

Lemma insert_sorted_filter_key s x l :
  filter (fun a => key a = s) (insert_sorted before x l)
  = filter (fun a => key a = s) (x :: l).
Proof.
  induction l as [|y l IH]; cbn [insert_sorted]; [reflexivity|].
  destruct (num_ltb (key x) (key y)) eqn:Hlt; [|reflexivity].
  apply num_ltb_true in Hlt.
  rewrite !filter_cons, IH, !filter_cons.
  destruct (decide (key y = s)) as [Hy|Hy], (decide (key x = s)) as [Hx|Hx];
    try reflexivity.
  apply Qclt_not_eq in Hlt. congruence.
Qed.

(** Elements with equal keys keep their relative order. *)
Lemma stable_sort_stable s l :
  filter (fun a => key a = s) (stable_sort before l) = filter (fun a => key a = s) l.
Proof.
  induction l as [|x l IH]; cbn [stable_sort fold_right]; [reflexivity|].
  rewrite insert_sorted_filter_key. fold (stable_sort before l).
  rewrite !filter_cons, IH. reflexivity.
Qed.
End SortByKey.

(** ** The search *)

Lemma similarity_of_max (distance : Qc) :
  let s := similarity_of distance in
  (0 <= s)%Qc /\ (1 - distance / Qc_of_Z 4 <= s)%Qc /\
  (s = 0%Qc \/ s = (1 - distance / Qc_of_Z 4)%Qc).
Proof.
  unfold similarity_of, num_ltb. cbv zeta. case_bool_decide as H.
  - split; [now apply Qclt_le_weak|]. split; [apply Qcle_refl | now right].
  - split; [apply Qcle_refl|]. split; [now apply Qcnot_lt_le | now left].
Qed.

Lemma faiss_search_length i x k hits :
  Faiss.search i x k = Ret hits -> length hits = Z.to_nat k.
Proof.
  unfold Faiss.search.
  destruct (negb _); [discriminate|]. destruct (negb _); [discriminate|].
  intros [= <-]. rewrite length_app, length_replicate, length_take. lia.
Qed.

Section ScanHits.
Context (m : EmbeddingModel) (thr : Qc).

Local Abbreviation well_scored :=
  (fun r : SearchResult =>
     r_similarity r = similarity_of (r_distance r) /\ (thr <= r_similarity r)%Qc).

Lemma scan_hits_well_scored hits acc cands :
  scan_hits m thr hits acc = Ret cands ->
  Forall well_scored acc -> Forall well_scored cands.
Proof.
  revert acc. induction hits as [|[distance idx] hits IH]; cbn [scan_hits]; intros acc.
  - now intros [= <-].
  - destruct (_ && _); [|apply IH].
    unfold num_leb. case_bool_decide as Hthr; [|apply IH].
    destruct (texts m !! _) as [t|]; [|discriminate].
    destruct (metadata m !! _) as [md|]; [|discriminate].
    intros Hscan Hacc. eapply IH; [exact Hscan|].
    apply Forall_app. split; [exact Hacc|].
    constructor; [|constructor]. split; [reflexivity | exact Hthr].
Qed.

Lemma scan_hits_length hits acc cands :
  scan_hits m thr hits acc = Ret cands ->
  (length cands <= length acc + length hits)%nat.
Proof.
  revert acc.
  induction hits as [|[distance idx] hits IH]; cbn [scan_hits length]; intros acc.
  - intros [= <-]. lia.
  - destruct (_ && _); [|intros H%IH; lia].
    destruct (num_leb _ _); [|intros H%IH; lia].
    destruct (texts m !! _) as [t|]; [|discriminate].
    destruct (metadata m !! _) as [md|]; [|discriminate].
    intros H%IH. rewrite length_app in H. simpl in H. lia.
Qed.

Lemma scan_hits_keeps_acc hits acc cands r :
  scan_hits m thr hits acc = Ret cands -> In r acc -> In r cands.
Proof.
  revert acc. induction hits as [|[distance idx] hits IH]; cbn [scan_hits]; intros acc.
  - now intros [= <-].
  - destruct (_ && _); [|apply IH].
    destruct (num_leb _ _); [|apply IH].
    destruct (texts m !! _) as [t|]; [|discriminate].
    destruct (metadata m !! _) as [md|]; [|discriminate].
    intros Hscan Hin. eapply IH; [exact Hscan|]. apply in_or_app. now left.
Qed.

(** A hit in range whose similarity reaches the threshold is kept. *)
Lemma scan_hits_complete hits acc cands distance idx :
  scan_hits m thr hits acc = Ret cands ->
  In (distance, idx) hits ->
  0 <= idx < Z.of_nat (length (texts m)) ->
  (thr <= similarity_of distance)%Qc ->
  exists t md,
    texts m !! Z.to_nat idx = Some t /\ metadata m !! Z.to_nat idx = Some md /\
    In {| r_text := t; r_metadata := md;
          r_similarity := similarity_of distance; r_distance := distance |} cands.
Proof.
  intros Hscan Hin Hidx Hthr. revert acc Hscan Hin.
  induction hits as [|[distance' idx'] hits IH]; cbn [scan_hits]; intros acc Hscan Hin;
    [contradiction|].
  destruct Hin as [[= -> ->]|Hin].
  - replace ((idx <? Z.of_nat (length (texts m))) && (0 <=? idx)) with true in Hscan
      by (symmetry; apply andb_true_intro; split; [apply Z.ltb_lt | apply Z.leb_le]; lia).
    unfold num_leb in Hscan. rewrite bool_decide_eq_true_2 in Hscan by exact Hthr.
    destruct (texts m !! _) as [t|]; [|discriminate].
    destruct (metadata m !! _) as [md|]; [|discriminate].
    exists t, md. repeat split.
    eapply scan_hits_keeps_acc; [exact Hscan|]. apply in_or_app. right. now left.
  - destruct (_ && _); [|eapply IH; eassumption].
    destruct (num_leb _ _); [|eapply IH; eassumption].
    destruct (texts m !! Z.to_nat idx') as [t|]; [|discriminate].
    destruct (metadata m !! Z.to_nat idx') as [md|]; [|discriminate].
    eapply IH; eassumption.
Qed.
End ScanHits.

(** The outcome of [search] along its main path. *)
Lemma search_main_path env m q k thr hits cands :
  Py.nonempty (Py.strip q) = true -> texts m <> [] ->
  np_any (embed env m (Py.strip q)) = true ->
  Faiss.search (index m) (embed env m (Py.strip q))
               (Z.min k (Z.of_nat (length (texts m)))) = Ret hits ->
  scan_hits m thr hits [] = Ret cands ->
  search env m q k thr = sort_by_similarity cands.
Proof.
  intros Hq Ht Hv Hhits Hscan. unfold search, search_try.
  rewrite Hq, Hv, Hhits. simpl. rewrite Hscan. simpl.
  destruct (texts m); [congruence | reflexivity].
Qed.

(** What [search] returns is either nothing or the sorted scan of the hits. *)
Lemma search_cases env m q k thr :
  search env m q k thr = [] \/
  exists hits cands,
    Faiss.search (index m) (embed env m (Py.strip q))
                 (Z.min k (Z.of_nat (length (texts m)))) = Ret hits /\
    scan_hits m thr hits [] = Ret cands /\
    search env m q k thr = sort_by_similarity cands.
Proof.
  unfold search, search_try.
  destruct (negb _ || _); [now left|].
  destruct (negb (np_any _)); [now left|].
  destruct (Faiss.search _ _ _) as [hits|]; simpl; [|now left].
  destruct (scan_hits _ _ _ _) as [cands|] eqn:Hscan; simpl; [|now left].
  right. exists hits, cands. auto.
Qed.

Lemma search_scored env m q k thr :
  Forall (fun r => r_similarity r = similarity_of (r_distance r) /\
                   (thr <= r_similarity r)%Qc)
         (search env m q k thr).
Proof.
  destruct (search_cases env m q k thr) as [Hnil|(hits & cands & _ & Hscan & Hrs)];
    [rewrite Hnil; constructor|].
  rewrite Hrs. unfold sort_by_similarity. rewrite stable_sort_perm.
  exact (scan_hits_well_scored m thr hits [] cands Hscan (Forall_nil_2 _)).
Qed.

Lemma search_sorted env m q k thr :
  StronglySorted (fun a b => (r_similarity b <= r_similarity a)%Qc)
                 (search env m q k thr).
Proof.
  destruct (search_cases env m q k thr) as [Hnil|(hits & cands & _ & _ & Hrs)];
    [rewrite Hnil; constructor|].
  rewrite Hrs. apply (stable_sort_sorted r_similarity).
Qed.

Lemma search_at_most_k env m q k thr :
  Z.of_nat (length (search env m q k thr)) <= Z.max 0 k.
Proof.
  destruct (search_cases env m q k thr) as [Hnil|(hits & cands & Hhits & Hscan & Hrs)];
    [rewrite Hnil; simpl; lia|].
  rewrite Hrs. unfold sort_by_similarity. rewrite stable_sort_perm.
  apply faiss_search_length in Hhits. apply scan_hits_length in Hscan.
  simpl in Hscan. lia.
Qed.

(** C2: every result carries the similarity [max(0, 1 - distance/4)], which
    reaches the threshold; the list is in non-increasing similarity and has
    at most [k] results; along the main path the list is the stable sort of
    the scanned hits, so that equal similarities keep the order of the hits,
    and a hit whose similarity reaches the threshold (equality included) is
    returned. *)
Theorem search_results env m q k thr :
  let rs := search env m q k thr in
  Forall (fun r => r_similarity r = similarity_of (r_distance r) /\
                   (0 <= r_similarity r)%Qc /\
                   (1 - r_distance r / Qc_of_Z 4 <= r_similarity r)%Qc /\
                   (r_similarity r = 0%Qc \/
                    r_similarity r = (1 - r_distance r / Qc_of_Z 4)%Qc) /\
                   (thr <= r_similarity r)%Qc) rs /\
  StronglySorted (fun a b => (r_similarity b <= r_similarity a)%Qc) rs /\
  Z.of_nat (length rs) <= Z.max 0 k /\
  (forall hits cands,
     Py.nonempty (Py.strip q) = true -> texts m <> [] ->
     np_any (embed env m (Py.strip q)) = true ->
     Faiss.search (index m) (embed env m (Py.strip q))
                  (Z.min k (Z.of_nat (length (texts m)))) = Ret hits ->
     scan_hits m thr hits [] = Ret cands ->
     (forall s, filter (fun r => r_similarity r = s) rs
                = filter (fun r => r_similarity r = s) cands) /\
     (forall distance idx,
        In (distance, idx) hits ->
        0 <= idx < Z.of_nat (length (texts m)) ->
        (thr <= similarity_of distance)%Qc ->
        exists t md,
          texts m !! Z.to_nat idx = Some t /\ metadata m !! Z.to_nat idx = Some md /\
          In {| r_text := t; r_metadata := md;
                r_similarity := similarity_of distance; r_distance := distance |} rs)).
Proof.
  intros rs. split; [|split; [|split]].
  - eapply Forall_impl; [apply search_scored|].
    intros r [Hsim Hthr]. pose proof (similarity_of_max (r_distance r)) as Hmax.
    cbv zeta in Hmax. rewrite <- Hsim in Hmax. tauto.
  - apply search_sorted.
  - apply search_at_most_k.
  - intros hits cands Hq Ht Hv Hhits Hscan.
    unfold rs. rewrite (search_main_path env m q k thr hits cands) by assumption.
    split.
    + intros s. apply (stable_sort_stable r_similarity).
    + intros distance idx Hin Hidx Hthr.
      destruct (scan_hits_complete m thr hits [] cands distance idx Hscan Hin Hidx Hthr)
        as (t & md & Ht' & Hmd & Hin').
      exists t, md. repeat split; try assumption.
      apply list_elem_of_In. unfold sort_by_similarity. rewrite stable_sort_perm.
      now apply list_elem_of_In.
Qed.

Lemma search_results_witness :
  exists t md,
    In {| r_text := t; r_metadata := md;
          r_similarity := similarity_of 1%Qc; r_distance := 1%Qc |}
       (search toy_env (embedding_model rag_with_custom) "exam stres" 3 (Q2Qc (3 # 4))).
Proof.
  pose proof (search_results toy_env (embedding_model rag_with_custom) "exam stres" 3
                (Q2Qc (3 # 4))) as H.
  cbv zeta in H. destruct H as (_ & _ & _ & H).
  edestruct H as [_ Hkept].
  - vm_compute. reflexivity.
  - vm_compute. discriminate.
  - vm_compute. reflexivity.
  - vm_compute. reflexivity.
  - vm_compute. reflexivity.
  - destruct (Hkept 1%Qc 8) as (t & md & _ & _ & Hin).
    + left. reflexivity.
    + vm_compute. split; [discriminate | reflexivity].
    + vm_compute. discriminate.
    + exists t, md. exact Hin.
Defined.

(** ** Crisis-first packing *)

Lemma is_crisis_spec q r :
  is_crisis q r = true <->
  r_metadata r !! "priority" = Some (VStr "high") \/
  exists keyword,
    In keyword ["suicide"; "crisis"; "emergency"; "harm"; "danger"] /\
    Py.contains keyword (Py.lower q) = true.
Proof.
  unfold is_crisis. rewrite orb_true_iff, bool_decide_eq_true, any_keyword_spec.
  reflexivity.
Qed.

(** The second comprehension, [r not in crisis_results], selects the results
    that fail the crisis test. *)
Lemma other_results_filter (P : SearchResult -> Prop) `{!forall r, Decision (P r)}
    (results l : list SearchResult) :
  (forall r, r ∈ l -> r ∈ results) ->
  filter (fun r => r ∉ filter P results) l = filter (fun r => ~ P r) l.
Proof.
  induction l as [|x l IH]; intros Hsub; [reflexivity|].
  rewrite !filter_cons, IH by (intros r Hr; apply Hsub; now right).
  assert (Hx : x ∈ results) by (apply Hsub; now left).
  destruct (decide (x ∉ filter P results)) as [Hn|Hn], (decide (~ P x)) as [Hp|Hp];
    try reflexivity; exfalso.
  - apply Hn, list_elem_of_filter. split; [|exact Hx].
    destruct (decide (P x)); tauto.
  - apply Hn. intros [HP _]%list_elem_of_filter. tauto.
Qed.

Lemma StronglySorted_filter {A} (R : A -> A -> Prop) (P : A -> Prop)
    `{!forall x, Decision (P x)} (l : list A) :
  StronglySorted R l -> StronglySorted R (filter P l).
Proof.
  induction 1 as [|x l Hl IH Hx]; [constructor|].
  rewrite filter_cons. destruct (decide (P x)); [|exact IH].
  constructor; [exact IH|].
  apply Forall_forall. intros y [_ Hy]%list_elem_of_filter.
  rewrite Forall_forall in Hx. auto.
Qed.

Lemma pack_blocks L rs : forall parts cur out,
  pack L rs parts cur = Ret out ->
  exists new n, out = parts ++ new /\ Forall2 is_block_of (take n rs) new.
Proof.
  induction rs as [|r rs IH]; intros parts cur out; cbn [pack].
  - intros [= <-]. exists [], 0%nat. rewrite app_nil_r. split; [reflexivity | constructor].
  - destruct (L <=? cur).
    { intros [= <-]. exists [], 0%nat. rewrite app_nil_r. split; [reflexivity | constructor]. }
    destruct (source_info (r_metadata r)) as [info|] eqn:Hinfo; [|discriminate].
    cbn [bind].
    destruct (cur + _ <=? L).
    + intros (new & n & -> & Hnew)%IH.
      exists ((info +:+ Py.LF +:+ Py.strip (r_text r)) :: new), (S n).
      rewrite <- app_assoc. split; [reflexivity|].
      cbn [take]. constructor; [|exact Hnew].
      exists info. split; [exact Hinfo | now left].
    + destruct (100 <? _).
      * intros [= <-]. eexists [_], 1%nat. split; [reflexivity|].
        cbn [take]. constructor; [|constructor].
        exists info. split; [exact Hinfo|]. right. eexists. reflexivity.
      * intros [= <-]. exists [], 0%nat. rewrite app_nil_r.
        split; [reflexivity | constructor].
Qed.

Lemma pack_first_fits L r rs info out :
  source_info (r_metadata r) = Ret info ->
  Py.len (info +:+ Py.LF +:+ Py.strip (r_text r)) <= L ->
  pack L (r :: rs) [] 0 = Ret out ->
  exists rest, out = (info +:+ Py.LF +:+ Py.strip (r_text r)) :: rest.
Proof.
  intros Hinfo Hfit. cbn [pack]. rewrite Hinfo. cbn [bind].
  assert (0 < Py.len (info +:+ Py.LF +:+ Py.strip (r_text r))) as Hpos.
  { unfold source_info in Hinfo.
    destruct (match r_metadata r !! "type" with
              | Some (VStr s) => Ret s | Some _ => Raise AttributeError
              | None => Ret "info" end) as [ty|]; [|discriminate].
    cbn [bind] in Hinfo.
    assert (exists c s, info = String c s) as (c & s & ->).
    { destruct (r_metadata r !! "source") as [v|];
        [destruct (PyVal.truthy _)|]; injection Hinfo as <-; eexists _, _; reflexivity. }
    unfold Py.len. simpl. lia. }
  replace (L <=? 0) with false by (symmetry; apply Z.leb_gt; lia).
  replace (0 + _ <=? L) with true by (symmetry; apply Z.leb_le; lia).
  intros (new & n & -> & _)%pack_blocks. eexists. reflexivity.
Qed.

(** C3: a non-empty result list is split into the crisis-priority results
    (priority ["high"], or every result when the query has one of the five
    keywords) and the others, each in the order of the search; the blocks
    are packed from the crisis-priority results first, the i-th packed block
    being the block of the i-th result of that order; with a high-priority
    result and a normal one, the first block of the output is the
    high-priority one. *)
Theorem crisis_results_first env rag q k L :
  let rag' := lazy_load env rag in
  let results := search env (embedding_model rag') q k score_threshold in
  let crisis := filter (fun r => is_crisis q r = true) results in
  let other := filter (fun r => ~ is_crisis q r = true) results in
  let by_similarity := fun a b => (r_similarity b <= r_similarity a)%Qc in
  results <> [] ->
  (forall r, is_crisis q r = true <->
     r_metadata r !! "priority" = Some (VStr "high") \/
     exists keyword,
       In keyword ["suicide"; "crisis"; "emergency"; "harm"; "danger"] /\
       Py.contains keyword (Py.lower q) = true) /\
  crisis ++ other ≡ₚ results /\
  sublist crisis results /\ sublist other results /\
  StronglySorted by_similarity crisis /\ StronglySorted by_similarity other /\
  retrieve_try env rag' q k L
    = (let! parts := pack L (crisis ++ other) [] 0 in Ret (Py.join SEPARATOR parts)) /\
  forall parts,
    pack L (crisis ++ other) [] 0 = Ret parts ->
    fst (retrieve_knowledge env rag q k L) = Py.join SEPARATOR parts /\
    (forall i p, parts !! i = Some p ->
       exists r, (crisis ++ other) !! i = Some r /\ is_block_of r p) /\
    (forall high normal,
       results = [normal; high] ->
       is_crisis q high = true -> is_crisis q normal = false ->
       (forall p, parts !! 0%nat = Some p -> is_block_of high p) /\
       (forall info,
          source_info (r_metadata high) = Ret info ->
          Py.len (info +:+ Py.LF +:+ Py.strip (r_text high)) <= L ->
          exists rest, parts = (info +:+ Py.LF +:+ Py.strip (r_text high)) :: rest)).
Proof.
  intros rag' results crisis other by_similarity Hne.
  assert (Hsorted : StronglySorted by_similarity results).
  { apply search_sorted. }
  assert (Htry : retrieve_try env rag' q k L
                 = (let! parts := pack L (crisis ++ other) [] 0 in
                    Ret (Py.join SEPARATOR parts))).
  { unfold retrieve_try. fold results.
    rewrite (other_results_filter _ results results) by auto.
    fold crisis. fold other. destruct results; [congruence | reflexivity]. }
  split; [apply is_crisis_spec|].
  split; [apply filter_app_complement|].
  split; [apply sublist_filter|]. split; [apply sublist_filter|].
  split; [now apply StronglySorted_filter|]. split; [now apply StronglySorted_filter|].
  split; [exact Htry|].
  intros parts Hpack.
  assert (Hblocks : forall i p, parts !! i = Some p ->
                    exists r, (crisis ++ other) !! i = Some r /\ is_block_of r p).
  { destruct (pack_blocks _ _ _ _ _ Hpack) as (new & n & -> & Hnew).
    intros i p Hp. simpl in Hp.
    destruct (Forall2_lookup_r _ _ _ _ _ Hnew Hp) as (r & Hr & Hb).
    exists r. split; [|exact Hb]. apply lookup_take_Some in Hr. tauto. }
  split; [|split; [exact Hblocks|]].
  - unfold retrieve_knowledge. fold rag'. rewrite Htry, Hpack. reflexivity.
  - intros high normal Hres Hhigh Hnormal.
    assert (Horder : crisis ++ other = [high; normal]).
    { unfold crisis, other. rewrite Hres, !filter_cons, !filter_nil.
      repeat case_decide; try reflexivity; congruence. }
    split.
    + intros p Hp. destruct (Hblocks _ _ Hp) as (r & Hr & Hb).
      rewrite Horder in Hr. injection Hr as <-. exact Hb.
    + intros info Hinfo Hfit. rewrite Horder in Hpack.
      eapply pack_first_fits; eassumption.
Qed.

Lemma crisis_results_first_witness :
  exists rest,
    fst (retrieve_knowledge toy_env rag_priority "xyz" 3 1500)
    = Py.join SEPARATOR
        (("[Crisis Resource] (crisis_guide)" +:+ Py.LF +:+ "abcd") :: rest).
Proof.
  pose proof (crisis_results_first toy_env rag_priority "xyz" 3 1500) as H.
  cbv zeta in H.
  destruct H as (_ & _ & _ & _ & _ & _ & _ & H); [vm_compute; discriminate|].
  edestruct H as (Hout & _ & Hpart); [vm_compute; reflexivity|].
  edestruct Hpart as [_ Hfirst]; [vm_compute; reflexivity ..|].
  edestruct Hfirst as [rest Hrest];
    [vm_compute; reflexivity | vm_compute; discriminate |].
  exists rest. rewrite Hout. f_equal. exact Hrest.
Defined.

(** ** The error policy of [retrieve_knowledge] *)

Lemma retrieve_try_packs env rag q k L :
  let results := search env (embedding_model rag) q k score_threshold in
  results <> [] ->
  retrieve_try env rag q k L
  = (let! parts := pack L (filter (fun r => is_crisis q r = true) results ++
                           filter (fun r => ~ is_crisis q r = true) results) [] 0 in
     Ret (Py.join SEPARATOR parts)).
Proof.
  intros results Hne. unfold retrieve_try. fold results.
  rewrite (other_results_filter _ results results) by auto.
  destruct results; [congruence | reflexivity].
Qed.

(** C1, as the code has it: the call, its handler included, always returns
    a string and never raises. It returns the default context when the
    search returns nothing, which is also what an exception inside the search
    leads to, and when the prioritisation or the packing raises; otherwise it
    returns the packed blocks joined by the separator. An exception in the
    lazy load is caught in the loader, which leaves the store as it was and
    the flag unset; retrieval then goes on with that store in the same way. *)
Theorem retrieve_knowledge_never_raises env rag q k L :
  let rag' := lazy_load env rag in
  let results := search env (embedding_model rag') q k score_threshold in
  let ordered := filter (fun r => is_crisis q r = true) results ++
                 filter (fun r => ~ is_crisis q r = true) results in
  let out := retrieve_knowledge env rag q k L in
  retrieve_knowledge_outcome env rag q k L = Ret out /\
  snd out = rag' /\
  (forall e, search_try env (embedding_model rag') q k score_threshold = Raise e ->
             results = [] /\ fst out = _get_default_context q) /\
  (forall e, retrieve_try env rag' q k L = Raise e ->
             fst out = _get_default_context q) /\
  (results = [] -> fst out = _get_default_context q) /\
  (results <> [] -> forall e, pack L ordered [] 0 = Raise e ->
                    fst out = _get_default_context q) /\
  (results <> [] -> forall parts, pack L ordered [] 0 = Ret parts ->
                    fst out = Py.join SEPARATOR parts) /\
  (forall e, knowledge_loaded rag = false -> mental_health_docs env = Raise e ->
             embedding_model rag' = embedding_model rag /\ knowledge_loaded rag' = false).
Proof.
  intros rag' results ordered out.
  assert (Hempty : results = [] -> fst out = _get_default_context q).
  { intros H. unfold out, retrieve_knowledge. fold rag'.
    now rewrite (retrieve_try_empty _ _ _ _ _ H). }
  assert (Hraise : forall e, retrieve_try env rag' q k L = Raise e ->
                             fst out = _get_default_context q).
  { intros e He. unfold out, retrieve_knowledge. fold rag'. now rewrite He. }
  split; [|split; [apply retrieve_knowledge_state|]].
  { unfold retrieve_knowledge_outcome, out, retrieve_knowledge, try_except. fold rag'.
    now destruct (retrieve_try env rag' q k L). }
  split; [|split; [exact Hraise|split; [exact Hempty|split; [|split]]]].
  - intros e He.
    assert (Hnil : results = []) by (unfold results, search; now rewrite He).
    split; [exact Hnil | now apply Hempty].
  - intros Hne e He. apply (Hraise e).
    rewrite (retrieve_try_packs env rag' q k L Hne). fold results. fold ordered.
    now rewrite He.
  - intros Hne parts Hparts. unfold out, retrieve_knowledge. fold rag'.
    rewrite (retrieve_try_packs env rag' q k L Hne). fold results. fold ordered.
    now rewrite Hparts.
  - intros e Hflag Hdocs. unfold rag', lazy_load, _load_knowledge_base.
    rewrite Hflag, Hdocs. split; reflexivity.
Qed.

Lemma retrieve_knowledge_never_raises_witness :
  fst (retrieve_knowledge toy_env toy_rag "x" 0 1500) = GENERAL_CONTEXT /\
  fst (retrieve_knowledge toy_env rag_bad_type "hello" 3 1500) = GENERAL_CONTEXT /\
  fst (retrieve_knowledge toy_env toy_rag "asdkjasdkj" 3 1500) = GENERAL_CONTEXT /\
  embedding_model (lazy_load malformed_env rag_on_snapshot) = embedding_model rag_on_snapshot /\
  fst (retrieve_knowledge malformed_env rag_bad_type_on_snapshot "hello" 3 1500)
    = GENERAL_CONTEXT /\
  fst (retrieve_knowledge toy_env rag_priority "xyz" 3 1500)
    = Py.join SEPARATOR ["[Crisis Resource] (crisis_guide)" +:+ Py.LF +:+ "abcd";
                         "[Custom] (user_added)" +:+ Py.LF +:+ "abc"].
Proof.
  pose proof (retrieve_knowledge_never_raises toy_env toy_rag "x" 0 1500) as H1.
  pose proof (retrieve_knowledge_never_raises toy_env rag_bad_type "hello" 3 1500) as H2.
  pose proof (retrieve_knowledge_never_raises toy_env toy_rag "asdkjasdkj" 3 1500) as H3.
  pose proof (retrieve_knowledge_never_raises malformed_env rag_on_snapshot "x" 3 1500) as H4.
  pose proof (retrieve_knowledge_never_raises malformed_env rag_bad_type_on_snapshot
                "hello" 3 1500) as H5.
  pose proof (retrieve_knowledge_never_raises toy_env rag_priority "xyz" 3 1500) as H6.
  cbv zeta in H1, H2, H3, H4, H5, H6.
  destruct H1 as (_ & _ & H1 & _). destruct H2 as (_ & _ & _ & H2 & _).
  destruct H3 as (_ & _ & _ & _ & H3 & _).
  destruct H4 as (_ & _ & _ & _ & _ & _ & _ & H4).
  destruct H5 as (_ & _ & _ & _ & _ & H5 & _).
  destruct H6 as (_ & _ & _ & _ & _ & _ & H6 & _).
  split; [|split; [|split; [|split; [|split]]]].
  - rewrite (proj2 (H1 AssertionError ltac:(vm_compute; reflexivity))). reflexivity.
  - rewrite (H2 AttributeError); [reflexivity | vm_compute; reflexivity].
  - rewrite H3; [reflexivity | vm_compute; reflexivity].
  - apply (H4 KeyError); reflexivity.
  - rewrite (H5 ltac:(vm_compute; discriminate) AttributeError);
      [reflexivity | vm_compute; reflexivity].
  - apply H6; [vm_compute; discriminate | vm_compute; reflexivity].
Defined.

(** C1, as stated, fails: with an unusable counselor directory the lazy load
    raises at every call, yet on a store restored from a snapshot the answer
    is the packed entry and not the default context. *)
Lemma lazy_load_failure_is_not_fallback :
  MentalHealthRAG_init malformed_env snapshot_with_custom = Ret rag_on_snapshot /\
  knowledge_loaded rag_on_snapshot = false /\
  mental_health_docs malformed_env = Raise KeyError /\
  fst (retrieve_knowledge malformed_env rag_on_snapshot "exam stress" 3 1500)
    = "[Custom] (user_added)" +:+ Py.LF +:+ "exam stress" /\
  fst (retrieve_knowledge malformed_env rag_on_snapshot "exam stress" 3 1500)
    <> _get_default_context "exam stress".
Proof.
  split; [reflexivity|]. split; [reflexivity|]. split; [reflexivity|].
  assert (H : fst (retrieve_knowledge malformed_env rag_on_snapshot "exam stress" 3 1500)
              = "[Custom] (user_added)" +:+ Py.LF +:+ "exam stress")
    by (vm_compute; reflexivity).
  split; [exact H|]. rewrite H. vm_compute. discriminate.
Qed.

(** ** The lock-step invariant *)

Lemma add_text_lock_step env m text md :
  lock_step m -> lock_step (add_text env m text md).
Proof.
  intros [Ht Hm]. unfold add_text.
  destruct (blank text); [now split|].
  destruct (np_any _); [|now split].
  unfold Faiss.add. destruct (negb _); [now split|].
  unfold lock_step, Faiss.ntotal in *. cbn. rewrite !length_app. cbn. lia.
Qed.

Lemma fold_left_invariant {S O : Type} (P : S -> Prop) (f : S -> O -> S) (ops : list O) :
  (forall s o, P s -> P (f s o)) -> forall s, P s -> P (fold_left f ops s).
Proof. intros Hf. induction ops as [|o ops IH]; simpl; auto. Qed.

Lemma add_documents_lock_step env m documents :
  lock_step m -> lock_step (add_documents env m documents).
Proof.
  unfold add_documents. apply fold_left_invariant. clear m.
  intros m doc Hm. unfold add_document.
  destruct (Py.nonempty _); [|exact Hm].
  unfold add_chunks. revert Hm. apply fold_left_invariant.
  intros m' ic. apply add_text_lock_step.
Qed.

Lemma step_lock_step env w o :
  lock_step (fst w) /\ disk_lock_step (snd w) ->
  lock_step (fst (step env w o)) /\ disk_lock_step (snd (step env w o)).
Proof.
  destruct w as [m disk]. cbn [fst snd]. intros [Hm Hd].
  destruct o; cbn [step fst snd].
  - split; [now apply add_text_lock_step | exact Hd].
  - split; [now apply add_documents_lock_step | exact Hd].
  - split; [|exact Hd]. destruct disk as [| |i data]; [exact Hm | now split | exact Hd].
  - split; [now split | exact Hd].
  - split; [exact Hm|]. exact Hm.
Qed.

(** C6: from a store in lock-step, with no snapshot on disk or one that is
    in lock-step (as [save_index] writes it), every sequence of [add_text],
    [add_documents], index load, clear and save leaves the three structures
    in lock-step. *)
Theorem store_lock_step env ops m disk :
  lock_step m -> disk_lock_step disk ->
  let m' := fst (run env ops (m, disk)) in
  length (texts m') = length (metadata m') /\
  length (metadata m') = Faiss.ntotal (index m').
Proof.
  intros Hm Hd.
  apply (fold_left_invariant
           (fun w => lock_step (fst w) /\ disk_lock_step (snd w)) (step env) ops).
  - intros w o. apply step_lock_step.
  - now split.
Qed.

Lemma store_lock_step_witness :
  let m' := fst (run toy_env
                   [OpAddText "" None; OpAddText "exam stress" None; OpSaveIndex;
                    OpAddDocuments static_docs; OpClearIndex; OpLoadIndex;
                    OpAddText "   " None]
                   (fresh_model, NoSnapshot)) in
  length (texts m') = length (metadata m') /\
  length (metadata m') = Faiss.ntotal (index m').
Proof.
  apply (store_lock_step toy_env _ fresh_model NoSnapshot).
  - split; reflexivity.
  - exact I.
Defined.

(** ** Growth of the store *)

Lemma extends_refl m : extends m m.
Proof. repeat split; reflexivity. Qed.

Lemma extends_trans m1 m2 m3 : extends m1 m2 -> extends m2 m3 -> extends m1 m3.
Proof.
  intros (H1 & H2 & H3) (H1' & H2' & H3').
  repeat split; etransitivity; eassumption.
Qed.

Lemma add_text_extends env m text md : extends m (add_text env m text md).
Proof.
  unfold add_text.
  destruct (blank text); [apply extends_refl|].
  destruct (np_any _); [|apply extends_refl].
  unfold Faiss.add. destruct (negb _); [apply extends_refl|].
  repeat split; cbn; apply prefix_app_r; reflexivity.
Qed.

Lemma fold_left_extends {O : Type} (f : EmbeddingModel -> O -> EmbeddingModel)
    (ops : list O) :
  (forall m o, extends m (f m o)) -> forall m, extends m (fold_left f ops m).
Proof.
  intros Hf. induction ops as [|o ops IH]; intros m; simpl; [apply extends_refl|].
  eapply extends_trans; [apply Hf | apply IH].
Qed.

Lemma add_documents_extends env m documents : extends m (add_documents env m documents).
Proof.
  unfold add_documents. apply fold_left_extends. clear m.
  intros m doc. unfold add_document.
  destruct (Py.nonempty _); [|apply extends_refl].
  unfold add_chunks. apply fold_left_extends.
  intros m' ic. apply add_text_extends.
Qed.

(** C9, as the code has it: under [add_text] and [add_documents] the store
    only grows by appending: the texts, the metadata and the vectors stored
    before stay in place and the count does not decrease. *)
Theorem additions_only_append env ops m disk :
  Forall (fun o => is_add o = true) ops ->
  let m' := fst (run env ops (m, disk)) in
  extends m m' /\ (length (texts m) <= length (texts m'))%nat.
Proof.
  intros Hops. cbv zeta.
  assert (H : extends m (fst (run env ops (m, disk)))).
  { revert m. induction Hops as [|o ops Ho _ IH]; intros m; [apply extends_refl|].
    unfold run. cbn [fold_left]. fold (run env ops (step env (m, disk) o)).
    destruct o; try discriminate; cbn [step].
    - eapply extends_trans; [apply add_text_extends | apply IH].
    - eapply extends_trans; [apply add_documents_extends | apply IH]. }
  split; [exact H|]. destruct H as [Ht _]. now apply prefix_length.
Qed.

Lemma additions_only_append_witness :
  let m' := fst (run toy_env [OpAddText "exam stress" None; OpAddDocuments static_docs]
                   (embedding_model toy_rag, NoSnapshot)) in
  extends (embedding_model toy_rag) m'.
Proof.
  apply (additions_only_append toy_env _ (embedding_model toy_rag) NoSnapshot).
  repeat constructor.
Defined.

(** C9, as stated, fails: [clear_index] deletes every stored entry. *)
Lemma clear_index_deletes :
  let m := embedding_model toy_rag in
  let m' := fst (step toy_env (m, NoSnapshot) OpClearIndex) in
  length (texts m) = 8%nat /\ Faiss.ntotal (index m) = 8%nat /\
  texts m' = [] /\ metadata m' = [] /\ Faiss.ntotal (index m') = 0%nat /\
  ~ extends m m'.
Proof.
  cbv zeta. repeat split; try (vm_compute; reflexivity).
  intros [H _]. apply prefix_length in H. vm_compute in H. lia.
Qed.

(** ** The length budget *)

Lemma append_cons c a b : String c a +:+ b = String c (a +:+ b).
Proof. reflexivity. Qed.

Lemma len_append a b : Py.len (a +:+ b) = Py.len a + Py.len b.
Proof.
  unfold Py.len. induction a as [|c a IH]; [reflexivity|].
  rewrite append_cons. cbn [String.length]. lia.
Qed.

Lemma len_take n s : Py.len (Py.take n s) <= Z.of_nat n.
Proof.
  unfold Py.len. revert s. induction n as [|n IH]; intros [|c s]; cbn; try lia.
  specialize (IH s). lia.
Qed.

Lemma sum_len_app a b : sum_len (a ++ b) = sum_len a + sum_len b.
Proof. unfold sum_len. induction a as [|p a IH]; cbn in *; lia. Qed.

Lemma len_nonneg s : 0 <= Py.len s.
Proof. unfold Py.len. lia. Qed.

(** The blocks that [pack] appends stay within the budget: the cumulative
    length of the blocks, separators not counted, is at most the context
    length. *)
Lemma pack_budget L rs : forall parts cur out,
  pack L rs parts cur = Ret out -> sum_len parts = cur ->
  sum_len out <= Z.max L cur /\ (length out <= length parts + length rs)%nat.
Proof.
  induction rs as [|r rs IH]; intros parts cur out; cbn [pack length].
  - intros [= <-] ->. lia.
  - destruct (L <=? cur) eqn:Hbreak.
    { intros [= <-] ->. lia. }
    apply Z.leb_gt in Hbreak.
    destruct (source_info (r_metadata r)) as [info|]; [|discriminate].
    cbn [bind].
    destruct (cur + _ <=? L) eqn:Hfit.
    + apply Z.leb_le in Hfit. intros Hpack Hcur.
      apply IH in Hpack; [|rewrite sum_len_app, Hcur; cbn; lia].
      rewrite length_app in Hpack. cbn [length] in Hpack. lia.
    + destruct (100 <? _) eqn:Hroom.
      * apply Z.ltb_lt in Hroom. intros [= <-] Hcur.
        rewrite sum_len_app, length_app, Hcur. cbn [sum_len fold_right length].
        rewrite !len_append.
        pose proof (len_take (Z.to_nat (L - cur - Py.len info - 10))
                      (Py.strip (r_text r))) as Htake.
        change (Py.len Py.LF) with 1. change (Py.len "...") with 3.
        pose proof (len_nonneg info). lia.
      * intros [= <-] ->. lia.
Qed.

Lemma len_join sep parts :
  Py.len (Py.join sep parts)
  = sum_len parts + Py.len sep * Z.max 0 (Z.of_nat (length parts) - 1).
Proof.
  induction parts as [|p [|p' parts] IH].
  - cbn [length]. rewrite Z.max_l, Z.mul_0_r by lia. reflexivity.
  - cbn [length Py.join sum_len fold_right]. rewrite Z.max_l, Z.mul_0_r by lia. lia.
  - change (Py.join sep (p :: p' :: parts))
      with (p +:+ sep +:+ Py.join sep (p' :: parts)).
    rewrite !len_append, IH. cbn [sum_len fold_right length].
    rewrite !Z.max_r by lia. lia.
Qed.

(** What the packing path does guarantee: the output is at most the context
    length plus seven characters for every separator, and there are fewer
    separators than results. *)
Lemma packed_length_bound env rag q k L context :
  0 <= L ->
  search env (embedding_model rag) q k score_threshold <> [] ->
  retrieve_try env rag q k L = Ret context ->
  Py.len context <= L + 7 * Z.max 0 (k - 1).
Proof.
  intros HL Hne. unfold retrieve_try.
  pose proof (search_at_most_k env (embedding_model rag) q k score_threshold) as Hk.
  set (results := search env (embedding_model rag) q k score_threshold) in *.
  rewrite (other_results_filter _ results results) by auto.
  destruct results as [|r0 results0] eqn:Hres; [congruence|]. rewrite <- Hres in *.
  destruct (pack _ _ _ _) as [parts|] eqn:Hpack; [|discriminate].
  cbn [bind]. intros [= <-].
  apply pack_budget in Hpack; [|reflexivity]. destruct Hpack as [Hsum Hn].
  rewrite len_join. change (Py.len SEPARATOR) with 7.
  cbn [length] in Hn.
  assert (length (filter (fun r => is_crisis q r = true) results ++
                  filter (fun r => ~ is_crisis q r = true) results) = length results) as Hlen.
  { apply Permutation_length, filter_app_complement. }
  rewrite Hlen in Hn. lia.
Qed.

(** C4 at the failing input: sixteen blocks of eight characters fill a
    context length of 128 exactly, and the fifteen separators bring the
    output to 233 characters, more than 128 + 100. *)
Theorem separators_exceed_budget :
  Py.len (fst (retrieve_knowledge toy_env rag_short "q" 16 128)) = 233 /\
  128 + 100 < 233.
Proof. split; [vm_compute; reflexivity | lia]. Qed.

(** ** Loading the knowledge base twice *)


Lemma grow_nil m : grow m [] [] [] = m.
Proof.
  destruct m as [[d xb] ts ms dim]. unfold grow. cbn. now rewrite !app_nil_r.
Qed.

Lemma grow_grow m vs ts ms vs' ts' ms' :
  grow (grow m vs ts ms) vs' ts' ms' = grow m (vs ++ vs') (ts ++ ts') (ms ++ ms').
Proof. unfold grow. cbn. now rewrite !app_assoc. Qed.

Lemma same_shape_grow m1 m2 vs ts ms :
  same_shape m1 m2 -> same_shape (grow m1 vs ts ms) (grow m2 vs ts ms).
Proof. intros H. exact H. Qed.

Lemma grows_alike_id : grows_alike (fun m => m).
Proof. intros m1 m2 _. exists [], [], []. now rewrite !grow_nil. Qed.

Lemma embed_same_shape env m1 m2 text :
  dimension m1 = dimension m2 -> embed env m1 text = embed env m2 text.
Proof. intros H. unfold embed. now rewrite H. Qed.

Lemma add_text_grows_alike env text md :
  grows_alike (fun m => add_text env m text md).
Proof.
  intros m1 m2 [Hdim Hd]. unfold add_text.
  rewrite (embed_same_shape env m1 m2 _ Hdim).
  destruct (blank text); [apply grows_alike_id; now split|].
  destruct (np_any _); [|apply grows_alike_id; now split].
  unfold Faiss.add. rewrite Hd.
  destruct (negb _); [apply grows_alike_id; now split|].
  eexists [_], [_], [_].
  split; [unfold grow; rewrite Hd; reflexivity | reflexivity].
Qed.

Lemma fold_left_grows_alike {O : Type} (f : EmbeddingModel -> O -> EmbeddingModel)
    (ops : list O) :
  (forall o, grows_alike (fun m => f m o)) ->
  grows_alike (fun m => fold_left f ops m).
Proof.
  intros Hf. induction ops as [|o ops IH]; cbn [fold_left]; [apply grows_alike_id|].
  intros m1 m2 Hshape.
  destruct (Hf o m1 m2 Hshape) as (vs & ts & ms & -> & ->).
  destruct (IH _ _ (same_shape_grow m1 m2 vs ts ms Hshape))
    as (vs' & ts' & ms' & -> & ->).
  exists (vs ++ vs'), (ts ++ ts'), (ms ++ ms'). now rewrite !grow_grow.
Qed.

Lemma add_documents_grows_alike env documents :
  grows_alike (fun m => add_documents env m documents).
Proof.
  unfold add_documents. apply fold_left_grows_alike.
  intros doc. unfold add_document.
  destruct (Py.nonempty _); [|apply grows_alike_id].
  unfold add_chunks. apply fold_left_grows_alike.
  intros ic. apply add_text_grows_alike.
Qed.

(** Whatever the provider, the splitter and the counselor directory are, a
    retriever constructed on the snapshot that a first retriever saved holds
    the entries of the first one twice. *)
Lemma reload_duplicates_every_chunk env rag1 :
  MentalHealthRAG_init env NoSnapshot = Ret rag1 ->
  exists rag2,
    MentalHealthRAG_init env (save_knowledge_base rag1 NoSnapshot) = Ret rag2 /\
    texts (embedding_model rag2)
      = texts (embedding_model rag1) ++ texts (embedding_model rag1) /\
    metadata (embedding_model rag2)
      = metadata (embedding_model rag1) ++ metadata (embedding_model rag1) /\
    Faiss.xb (index (embedding_model rag2))
      = Faiss.xb (index (embedding_model rag1)) ++ Faiss.xb (index (embedding_model rag1)).
Proof.
  unfold MentalHealthRAG_init, EmbeddingModel_init.
  destruct (api_key env); [|discriminate]. cbn [negb bind _load_index].
  intros [= <-]. eexists. split; [reflexivity|].
  unfold _load_knowledge_base.
  destruct (mental_health_docs env) as [docs|]; cbn; [|repeat split; reflexivity].
  set (fresh := {| index := Faiss.new 1536; texts := []; metadata := [];
                   dimension := 1536 |}).
  set (m1 := add_documents env fresh docs).
  set (restored := {| index := index m1; texts := texts m1; metadata := metadata m1;
                      dimension := dimension m1 |}).
  assert (Hshape : same_shape fresh restored).
  { destruct (add_documents_grows_alike env docs fresh fresh) as (vs & ts & ms & H & _);
      [now split|].
    unfold restored, m1. rewrite H. now split. }
  destruct (add_documents_grows_alike env docs fresh restored Hshape)
    as (vs & ts & ms & H1 & H2).
  rewrite H2. unfold restored, m1. rewrite H1. cbn. repeat split.
Qed.

(** C7 at the failing input: the retriever constructed on the snapshot that
    a first retriever saved holds every chunk twice. *)
Theorem reload_on_snapshot_duplicates :
  MentalHealthRAG_init toy_env NoSnapshot = Ret toy_rag /\
  exists rag2,
    MentalHealthRAG_init toy_env (save_knowledge_base toy_rag NoSnapshot) = Ret rag2 /\
    texts (embedding_model rag2)
      = texts (embedding_model toy_rag) ++ texts (embedding_model toy_rag) /\
    length (texts (embedding_model toy_rag)) = 8%nat /\
    length (texts (embedding_model rag2)) = 16%nat.
Proof.
  split; [reflexivity|]. eexists. split; [reflexivity|].
  repeat split; vm_compute; reflexivity.
Qed.

(** * Further properties *)

(** ** Stripping and case folding *)

Lemma lstrip_keeps c t : Py.isspace c = false -> Py.lstrip (String c t) = String c t.
Proof. intros H. cbn [Py.lstrip]. now rewrite H. Qed.

Lemma lstrip_head s :
  Py.lstrip s = "" \/ exists c t, Py.lstrip s = String c t /\ Py.isspace c = false.
Proof.
  induction s as [|c s IH]; [now left|].
  cbn [Py.lstrip]. destruct (Py.isspace c) eqn:Hc; [exact IH|].
  right. exists c, s. now split.
Qed.

Lemma rstrip_head c t :
  Py.isspace c = false -> exists t', Py.rstrip (String c t) = String c t'.
Proof.
  intros H. cbn [Py.rstrip]. destruct (Py.rstrip t); [rewrite H|]; eexists; reflexivity.
Qed.

Lemma rstrip_rstrip s : Py.rstrip (Py.rstrip s) = Py.rstrip s.
Proof.
  induction s as [|c s IH]; [reflexivity|].
  cbn [Py.rstrip]. destruct (Py.rstrip s) as [|a r] eqn:Hr.
  - destruct (Py.isspace c) eqn:Hc; [reflexivity|]. cbn [Py.rstrip]. now rewrite Hc.
  - change (Py.rstrip (String c (String a r)))
      with (match Py.rstrip (String a r) with
            | EmptyString => if Py.isspace c then EmptyString else String c EmptyString
            | r' => String c r'
            end).
    now rewrite IH.
Qed.

Lemma strip_strip s : Py.strip (Py.strip s) = Py.strip s.
Proof.
  unfold Py.strip.
  destruct (lstrip_head s) as [->|(c & t & -> & Hc)]; [reflexivity|].
  destruct (rstrip_head c t Hc) as [t' Ht']. rewrite Ht'.
  rewrite (lstrip_keeps c t' Hc), <- Ht'. apply rstrip_rstrip.
Qed.

Lemma blank_strip text : blank text = negb (Py.nonempty (Py.strip text)).
Proof. unfold blank. destruct text; reflexivity. Qed.

Lemma rstrip_whitespace_only s : whitespace_only s = true -> Py.rstrip s = "".
Proof.
  induction s as [|c s IH]; [reflexivity|].
  cbn [whitespace_only Py.rstrip]. intros [Hc Hs]%andb_prop.
  now rewrite (IH Hs), Hc.
Qed.

Lemma append_nil_l s : "" +:+ s = s.
Proof. reflexivity. Qed.

Lemma rstrip_app_space s post :
  whitespace_only post = true -> Py.rstrip (s +:+ post) = Py.rstrip s.
Proof.
  intros Hpost. induction s as [|c s IH].
  - rewrite append_nil_l. now apply rstrip_whitespace_only.
  - rewrite append_cons. cbn [Py.rstrip]. now rewrite IH.
Qed.

Lemma strip_app_space_r s post :
  whitespace_only post = true -> Py.strip (s +:+ post) = Py.strip s.
Proof.
  intros Hpost. unfold Py.strip. induction s as [|c s IH].
  - rewrite append_nil_l. now rewrite (lstrip_whitespace_only _ Hpost).
  - rewrite append_cons. cbn [Py.lstrip]. destruct (Py.isspace c); [exact IH|].
    rewrite <- append_cons. now apply rstrip_app_space.
Qed.

Lemma lstrip_app_space_l pre s :
  whitespace_only pre = true -> Py.lstrip (pre +:+ s) = Py.lstrip s.
Proof.
  induction pre as [|c pre IH]; [reflexivity|].
  cbn [whitespace_only]. intros [Hc Hpre]%andb_prop.
  rewrite append_cons. cbn [Py.lstrip]. rewrite Hc. auto.
Qed.

Lemma strip_padded pre s post :
  whitespace_only pre = true -> whitespace_only post = true ->
  Py.strip (pre +:+ s +:+ post) = Py.strip s.
Proof.
  intros Hpre Hpost. rewrite <- (strip_app_space_r s post Hpost).
  unfold Py.strip. now rewrite lstrip_app_space_l.
Qed.



Lemma isspace_to_lower c : Py.isspace (Py.to_lower c) = Py.isspace c.
Proof. destruct c as [[] [] [] [] [] [] [] []]; reflexivity. Qed.




Lemma lstrip_smap f s :
  (forall c, Py.isspace (f c) = Py.isspace c) ->
  Py.lstrip (Py.smap f s) = Py.smap f (Py.lstrip s).
Proof.
  intros H. induction s as [|c s IH]; [reflexivity|].
  cbn [Py.smap Py.lstrip]. rewrite H. destruct (Py.isspace c); [exact IH | reflexivity].
Qed.

Lemma rstrip_smap f s :
  (forall c, Py.isspace (f c) = Py.isspace c) ->
  Py.rstrip (Py.smap f s) = Py.smap f (Py.rstrip s).
Proof.
  intros H. induction s as [|c s IH]; [reflexivity|].
  cbn [Py.smap Py.rstrip]. rewrite IH, H.
  destruct (Py.rstrip s); cbn [Py.smap]; [destruct (Py.isspace c)|]; reflexivity.
Qed.

Lemma strip_smap f s :
  (forall c, Py.isspace (f c) = Py.isspace c) ->
  Py.strip (Py.smap f s) = Py.smap f (Py.strip s).
Proof. intros H. unfold Py.strip. now rewrite lstrip_smap, rstrip_smap. Qed.


Lemma smap_length f s : String.length (Py.smap f s) = String.length s.
Proof. induction s as [|c s IH]; cbn; [reflexivity | now rewrite IH]. Qed.

Lemma lstrip_length s : (String.length (Py.lstrip s) <= String.length s)%nat.
Proof.
  induction s as [|c s IH]; cbn [Py.lstrip]; [lia|].
  destruct (Py.isspace c); cbn [String.length]; lia.
Qed.

Lemma rstrip_length s : (String.length (Py.rstrip s) <= String.length s)%nat.
Proof.
  induction s as [|c s IH]; cbn [Py.rstrip]; [lia|].
  destruct (Py.rstrip s); [destruct (Py.isspace c)|]; cbn [String.length] in *; lia.
Qed.

Lemma lstrip_same_length s :
  String.length (Py.lstrip s) = String.length s -> Py.lstrip s = s.
Proof.
  destruct s as [|c s]; [reflexivity|]. cbn [Py.lstrip].
  destruct (Py.isspace c); [|reflexivity].
  pose proof (lstrip_length s). cbn [String.length]. lia.
Qed.

Lemma rstrip_same_length s :
  String.length (Py.rstrip s) = String.length s -> Py.rstrip s = s.
Proof.
  induction s as [|c s IH]; [reflexivity|]. cbn [Py.rstrip].
  pose proof (rstrip_length s) as Hle.
  destruct (Py.rstrip s) as [|a r] eqn:Hr.
  - destruct (Py.isspace c); cbn [String.length] in *; intros H;
      [lia | destruct s; [reflexivity | cbn [String.length] in H; lia]].
  - cbn [String.length] in *. intros H. f_equal. apply IH. lia.
Qed.

Lemma strip_same_length s :
  String.length (Py.strip s) = String.length s -> Py.strip s = s.
Proof.
  unfold Py.strip. intros H.
  pose proof (rstrip_length (Py.lstrip s)). pose proof (lstrip_length s).
  assert (Hl : Py.lstrip s = s) by (apply lstrip_same_length; lia).
  rewrite Hl in *. now apply rstrip_same_length.
Qed.

(** ** Texts are embedded, stored and searched without their surrounding
       whitespace *)

Lemma embed_strip env m text : embed env m (Py.strip text) = embed env m text.
Proof. unfold embed. now rewrite !blank_strip, !strip_strip. Qed.

Lemma add_text_strip env m text md :
  add_text env m (Py.strip text) md = add_text env m text md.
Proof. unfold add_text. now rewrite !blank_strip, !strip_strip. Qed.

Lemma search_strip env m query k thr :
  search env m (Py.strip query) k thr = search env m query k thr.
Proof. unfold search, search_try. now rewrite !strip_strip. Qed.

(** X1: whitespace around a text changes neither its embedding, nor what
    [add_text] stores, nor what [search] returns for it as a query. *)
Theorem surrounding_whitespace_ignored env m text md pre post :
  whitespace_only pre = true -> whitespace_only post = true ->
  let padded := pre +:+ text +:+ post in
  embed env m padded = embed env m text /\
  add_text env m padded md = add_text env m text md /\
  (forall k thr, search env m padded k thr = search env m text k thr).
Proof.
  intros Hpre Hpost padded.
  assert (Hs : Py.strip padded = Py.strip text) by now apply strip_padded.
  split; [|split].
  - now rewrite <- (embed_strip env m padded), Hs, embed_strip.
  - now rewrite <- (add_text_strip env m padded), Hs, add_text_strip.
  - intros k thr. now rewrite <- (search_strip env m padded), Hs, search_strip.
Qed.

Lemma surrounding_whitespace_ignored_witness :
  add_text toy_env (embedding_model toy_rag) ("  " +:+ "exam stress" +:+ Py.LF) None
  = add_text toy_env (embedding_model toy_rag) "exam stress" None.
Proof.
  apply (surrounding_whitespace_ignored toy_env (embedding_model toy_rag)
           "exam stress" None "  " Py.LF); reflexivity.
Defined.

(** ** Saving and loading *)


(** ** The counselor lookup *)

Lemma find_counselor_spec cs key :
  match find_counselor cs key with
  | Some c =>
      exists before entry after,
        cs = before ++ entry :: after /\ counselor entry = c /\
        (exists prog, In prog (programs entry) /\ Py.lower prog = key) /\
        Forall (fun e => Forall (fun prog => Py.lower prog <> key) (programs e)) before
  | None => Forall (fun e => Forall (fun prog => Py.lower prog <> key) (programs e)) cs
  end.
Proof.
  induction cs as [|e cs IH]; cbn [find_counselor]; [constructor|].
  destruct (existsb _ (programs e)) eqn:He.
  - exists [], e, cs. split; [reflexivity|]. split; [reflexivity|]. split; [|constructor].
    apply existsb_exists in He as (prog & Hin & Heq). exists prog.
    split; [exact Hin | now apply String.eqb_eq].
  - assert (Hno : Forall (fun prog => Py.lower prog <> key) (programs e)).
    { apply Forall_forall. intros prog Hin%list_elem_of_In Heq.
      assert (existsb (fun prog => String.eqb (Py.lower prog) key) (programs e) = true);
        [|congruence].
      apply existsb_exists. exists prog. split; [exact Hin | now apply String.eqb_eq]. }
    destruct (find_counselor cs key) as [c|].
    + destruct IH as (before & entry & after & -> & Hc & Hprog & Hbefore).
      exists (e :: before), entry, after. repeat split; try assumption.
      now constructor.
    + now constructor.
Qed.

(** X3: [find_counselor_by_program] returns the counselor of the first entry,
    in the order of the directory, one of whose programs equals the stripped
    name up to case, and [None] when there is no such entry; a program that
    is listed with surrounding whitespace never matches. *)
Theorem find_counselor_by_program_first_match cs name :
  let key := Py.lower (Py.strip name) in
  match find_counselor_by_program cs name with
  | Some c =>
      exists before entry after,
        cs = before ++ entry :: after /\ counselor entry = c /\
        (exists prog, In prog (programs entry) /\ Py.lower prog = key /\
                      Py.strip prog = prog) /\
        Forall (fun e => Forall (fun prog => Py.lower prog <> key) (programs e)) before
  | None => Forall (fun e => Forall (fun prog => Py.lower prog <> key) (programs e)) cs
  end.
Proof.
  intros key. unfold find_counselor_by_program. fold key.
  pose proof (find_counselor_spec cs key) as H.
  destruct (find_counselor cs key) as [c|]; [|exact H].
  destruct H as (before & entry & after & Hcs & Hc & (prog & Hin & Hprog) & Hbefore).
  exists before, entry, after. repeat split; try assumption.
  exists prog. repeat split; try assumption.
  apply strip_same_length.
  assert (Hk : Py.strip key = key).
  { unfold key, Py.lower. rewrite strip_smap by apply isspace_to_lower.
    now rewrite strip_strip. }
  rewrite <- Hprog in Hk. unfold Py.lower in Hk.
  rewrite strip_smap in Hk by apply isspace_to_lower.
  apply (f_equal String.length) in Hk. now rewrite !smap_length in Hk.
Qed.



Example find_counselor_first_ex :
  c_name <$> find_counselor_by_program toy_counselors " msc data ANALYTICS " = Some "Asha Rao".
Proof. reflexivity. Qed.

Example find_counselor_padded_program_ex :
  find_counselor_by_program toy_counselors "BA English" = None.
Proof. reflexivity. Qed.

(** ** What the store holds *)

Lemma add_text_clean env m text md : clean_store m -> clean_store (add_text env m text md).
Proof.
  intros [Ht Hv]. unfold add_text.
  destruct (blank text) eqn:Hb; [now split|].
  destruct (np_any _) eqn:Hany; [|now split].
  unfold Faiss.add. destruct (negb _) eqn:Hlen; [now split|].
  apply negb_false_iff, Nat.eqb_eq in Hlen.
  split; cbn; apply Forall_app; (split; [assumption|]); repeat constructor.
  - rewrite blank_strip in Hb. destruct (Py.strip text); [discriminate | discriminate].
  - apply strip_strip.
  - exact Hany.
  - exact Hlen.
Qed.

Lemma add_documents_clean env m documents :
  clean_store m -> clean_store (add_documents env m documents).
Proof.
  unfold add_documents. apply fold_left_invariant. clear m.
  intros m doc Hm. unfold add_document.
  destruct (Py.nonempty _); [|exact Hm].
  unfold add_chunks. revert Hm. apply fold_left_invariant.
  intros m' ic. apply add_text_clean.
Qed.

Lemma step_clean env w o :
  clean_store (fst w) /\ clean_disk (snd w) ->
  clean_store (fst (step env w o)) /\ clean_disk (snd (step env w o)).
Proof.
  destruct w as [m disk]. cbn [fst snd]. intros [Hm Hd].
  destruct o; cbn [step fst snd].
  - split; [now apply add_text_clean | exact Hd].
  - split; [now apply add_documents_clean | exact Hd].
  - split; [|exact Hd].
    destruct disk as [| |i data]; [exact Hm | split; constructor | exact Hd].
  - split; [split; constructor | exact Hd].
  - split; [exact Hm | exact Hm].
Qed.

(** X5: no blank text and no zero vector is ever stored: from a store (and
    a snapshot, if there is one) whose texts are non-empty and stripped and
    whose vectors are non-zero and of the index dimension, every sequence of
    additions, loads, clears and saves leaves such a store. *)
Theorem store_stays_clean env ops m disk :
  clean_store m -> clean_disk disk ->
  let m' := fst (run env ops (m, disk)) in
  Forall (fun t => t <> "" /\ Py.strip t = t) (texts m') /\
  Forall (fun v => np_any v = true /\ length v = Faiss.d (index m'))
         (Faiss.xb (index m')).
Proof.
  intros Hm Hd.
  apply (fold_left_invariant
           (fun w => clean_store (fst w) /\ clean_disk (snd w)) (step env) ops).
  - intros w o. apply step_clean.
  - now split.
Qed.

Lemma store_stays_clean_witness :
  let m' := fst (run toy_env
                   [OpAddText "  " None; OpAddText " exam stress " None; OpSaveIndex;
                    OpAddDocuments static_docs; OpClearIndex; OpLoadIndex]
                   (fresh_model, NoSnapshot)) in
  Forall (fun t => t <> "" /\ Py.strip t = t) (texts m') /\
  Forall (fun v => np_any v = true /\ length v = Faiss.d (index m'))
         (Faiss.xb (index m')).
Proof.
  apply (store_stays_clean toy_env _ fresh_model NoSnapshot).
  - split; constructor.
  - exact I.
Defined.

(** ** The metadata of chunks *)






(** ** Searches that return nothing *)

(** X7: [search] returns the empty list for a blank query, on an empty
    store, for [k <= 0], when the provider fails or gives an all-zero vector
    for the query, and when the query vector has not the dimension of the
    index. *)
Theorem search_returns_nothing env m q k thr :
  Py.strip q = "" \/ texts m = [] \/ k <= 0 \/
  embed_query env (Py.strip q) = None \/
  Forall (fun x => x = 0%Qc) (embed env m (Py.strip q)) \/
  length (embed env m (Py.strip q)) <> Faiss.d (index m) ->
  search env m q k thr = [].
Proof.
  intros H. unfold search, search_try.
  destruct (negb (Py.nonempty (Py.strip q)) || (length (texts m) =? 0)%nat) eqn:Hguard;
    [reflexivity|].
  apply orb_false_elim in Hguard as [Hq Ht].
  apply negb_false_iff in Hq. apply Nat.eqb_neq in Ht.
  destruct (negb (np_any _)) eqn:Hany; [reflexivity|]. apply negb_false_iff in Hany.
  destruct H as [H|[H|[H|[H|[H|H]]]]].
  - rewrite H in Hq. discriminate.
  - rewrite H in Ht. now contradiction Ht.
  - unfold Faiss.search. destruct (negb (_ =? _)%nat); [reflexivity|].
    replace (0 <? Z.min k _) with false by (symmetry; apply Z.ltb_ge; lia). reflexivity.
  - exfalso. unfold embed in Hany. rewrite strip_strip, H in Hany.
    destruct (blank _);
      rewrite np_any_false in Hany by apply np_zeros_all_zero; discriminate.
  - rewrite (np_any_false _ H) in Hany. discriminate.
  - unfold Faiss.search.
    replace (length (embed env m (Py.strip q)) =? Faiss.d (index m))%nat with false
      by (symmetry; now apply Nat.eqb_neq).
    reflexivity.
Qed.

Lemma search_returns_nothing_witness :
  search toy_env (embedding_model toy_rag) "   " 3 0%Qc = [] /\
  search toy_env fresh_model "exam stress" 3 0%Qc = [] /\
  search toy_env (embedding_model toy_rag) "exam stress" 0 0%Qc = [] /\
  search down_env (embedding_model toy_rag) "exam stress" 3 0%Qc = [].
Proof.
  split; [|split; [|split]].
  - apply (search_returns_nothing toy_env (embedding_model toy_rag) "   " 3 0%Qc).
    left. reflexivity.
  - apply (search_returns_nothing toy_env fresh_model "exam stress" 3 0%Qc).
    right. left. reflexivity.
  - apply (search_returns_nothing toy_env (embedding_model toy_rag) "exam stress" 0 0%Qc).
    right. right. left. lia.
  - apply (search_returns_nothing down_env (embedding_model toy_rag) "exam stress" 3 0%Qc).
    right. right. right. left. reflexivity.
Defined.

(** ** Where the results come from *)

Lemma insert_sorted_any_perm {A} (before : A -> A -> bool) x l :
  insert_sorted before x l ≡ₚ x :: l.
Proof.
  induction l as [|y l IH]; cbn [insert_sorted]; [reflexivity|].
  destruct (before y x); [|reflexivity]. rewrite IH. apply perm_swap.
Qed.

Lemma stable_sort_any_perm {A} (before : A -> A -> bool) l : stable_sort before l ≡ₚ l.
Proof.
  induction l as [|x l IH]; cbn [stable_sort fold_right]; [reflexivity|].
  rewrite insert_sorted_any_perm. fold (stable_sort before l). now rewrite IH.
Qed.

Lemma Qc_square_nonneg (x : Qc) : (0 <= x * x)%Qc.
Proof.
  destruct (Qclt_le_dec x 0) as [Hneg|Hpos].
  - replace (x * x)%Qc with ((- x) * (- x))%Qc by ring.
    assert (0 <= - x)%Qc as H.
    { apply Qclt_le_weak in Hneg. apply Qcopp_le_compat in Hneg.
      now replace (- 0)%Qc with 0%Qc in Hneg by ring. }
    pose proof (Qcmult_le_compat_r 0 (- x) (- x) H H) as Hm.
    now rewrite Qcmult_0_l in Hm.
  - pose proof (Qcmult_le_compat_r 0 x x Hpos Hpos) as Hm.
    now rewrite Qcmult_0_l in Hm.
Qed.

Lemma Qc_plus_nonneg (a b : Qc) : (0 <= a)%Qc -> (0 <= b)%Qc -> (0 <= a + b)%Qc.
Proof.
  intros Ha Hb. pose proof (Qcplus_le_compat 0 a 0 b Ha Hb) as H.
  now rewrite Qcplus_0_l in H.
Qed.

Lemma l2_sqr_nonneg x y : (0 <= Faiss.l2_sqr x y)%Qc.
Proof.
  unfold Faiss.l2_sqr. revert y.
  induction x as [|a x IH]; intros [|b y]; cbn; try apply Qcle_refl.
  apply Qc_plus_nonneg; [apply Qc_square_nonneg | apply IH].
Qed.

Lemma FLT_MAX_nonneg : (0 <= Faiss.FLT_MAX)%Qc.
Proof. vm_compute. discriminate. Qed.

(** The hits of the index: non-negative distances, labels below the number
    of stored vectors. *)
Lemma faiss_search_hits i x k hits :
  Faiss.search i x k = Ret hits ->
  Forall (fun h => (0 <= fst h)%Qc /\ snd h < Z.of_nat (Faiss.ntotal i)) hits.
Proof.
  unfold Faiss.search.
  destruct (negb _); [discriminate|]. destruct (negb _); [discriminate|].
  intros [= <-]. apply Forall_app. split.
  - apply Forall_take. rewrite stable_sort_any_perm.
    apply Forall_forall. intros h (j & y & -> & Hl)%elem_of_lookup_imap.
    apply lookup_lt_Some in Hl. cbn [fst snd]. split; [apply l2_sqr_nonneg|].
    unfold Faiss.ntotal. lia.
  - apply Forall_replicate. cbn [fst snd]. split; [apply FLT_MAX_nonneg | lia].
Qed.

Lemma similarity_of_le_1 distance : (0 <= distance)%Qc -> (similarity_of distance <= 1)%Qc.
Proof.
  intros Hd. unfold similarity_of. cbv zeta.
  destruct (num_ltb _ _); [|vm_compute; discriminate].
  apply Qcle_minus_iff.
  replace (1 + - (1 - distance / Qc_of_Z 4))%Qc with (distance * / Qc_of_Z 4)%Qc
    by (unfold Qcdiv; ring).
  assert (0 <= / Qc_of_Z 4)%Qc as H4 by (vm_compute; discriminate).
  pose proof (Qcmult_le_compat_r 0 distance (/ Qc_of_Z 4) Hd H4) as H.
  now rewrite Qcmult_0_l in H.
Qed.

Lemma scan_hits_from_store m thr hits : forall acc cands,
  scan_hits m thr hits acc = Ret cands ->
  Forall (fun h => (0 <= fst h)%Qc) hits ->
  let ok := fun r =>
    (exists i, texts m !! i = Some (r_text r) /\ metadata m !! i = Some (r_metadata r)) /\
    (0 <= r_distance r)%Qc in
  Forall ok acc -> Forall ok cands.
Proof.
  induction hits as [|[distance idx] hits IH]; cbn [scan_hits]; intros acc cands.
  - now intros [= <-].
  - intros Hscan [Hd Hhits]%Forall_cons. cbv zeta in *. cbn [fst] in Hd.
    destruct (_ && _); [|now apply IH].
    destruct (num_leb _ _); [|now apply IH].
    destruct (texts m !! Z.to_nat idx) as [t|] eqn:Ht; [|discriminate].
    destruct (metadata m !! Z.to_nat idx) as [md|] eqn:Hmd; [|discriminate].
    intros Hacc. eapply IH; [exact Hscan | exact Hhits |].
    apply Forall_app. split; [exact Hacc|]. repeat constructor; [|exact Hd].
    exists (Z.to_nat idx). now split.
Qed.

(** X8: every result of [search] pairs a stored text with the metadata
    stored at the same position, has a non-negative distance and a
    similarity between 0 and 1. *)
Theorem search_results_from_store env m q k thr :
  Forall (fun r =>
            (exists i, texts m !! i = Some (r_text r) /\
                       metadata m !! i = Some (r_metadata r)) /\
            (0 <= r_distance r)%Qc /\
            (0 <= r_similarity r)%Qc /\ (r_similarity r <= 1)%Qc)
         (search env m q k thr).
Proof.
  destruct (search_cases env m q k thr) as [->|(hits & cands & Hhits & Hscan & Hrs)];
    [constructor|].
  pose proof (search_scored env m q k thr) as Hscored.
  rewrite Hrs in *. unfold sort_by_similarity in *.
  rewrite stable_sort_perm in Hscored. rewrite stable_sort_perm.
  apply faiss_search_hits in Hhits.
  assert (Hpos : Forall (fun h : Qc * Z => (0 <= fst h)%Qc) hits)
    by (eapply Forall_impl; [exact Hhits | now intros h [H _]]).
  pose proof (scan_hits_from_store m thr hits [] cands Hscan Hpos (Forall_nil_2 _)) as Hfrom.
  cbv zeta in Hfrom.
  apply Forall_forall. intros r Hr.
  rewrite Forall_forall in Hscored, Hfrom.
  destruct (Hscored r Hr) as [Hsim _]. destruct (Hfrom r Hr) as [Hst Hd].
  split; [exact Hst|]. split; [exact Hd|]. rewrite Hsim.
  split; [apply similarity_of_max | now apply similarity_of_le_1].
Qed.

(** ** [get_relevant_context] *)

Lemma sum_len_nonneg parts : 0 <= sum_len parts.
Proof.
  induction parts as [|p parts IH]; cbn [sum_len fold_right]; [lia|].
  pose proof (len_nonneg p). unfold sum_len in IH. lia.
Qed.

Lemma pack_context_greedy L rs : forall parts cur,
  sum_len parts = cur ->
  exists n,
    pack_context L rs parts cur = parts ++ map context_block (take n rs) /\
    sum_len (pack_context L rs parts cur) <= Z.max L cur /\
    ((n < length rs)%nat ->
     L < sum_len (parts ++ map context_block (take (S n) rs))).
Proof.
  induction rs as [|r rs IH]; intros parts cur Hcur; cbn [pack_context].
  - exists 0%nat. cbn. rewrite app_nil_r. split; [reflexivity|]. split; lia.
  - destruct (cur + _ <=? L) eqn:Hfit.
    + apply Z.leb_le in Hfit.
      destruct (IH (parts ++ [context_block r]) (cur + Py.len (context_block r)))
        as (n & Hout & Hsum & Hstop).
      { rewrite sum_len_app, Hcur. cbn [sum_len fold_right]. lia. }
      exists (S n). cbn [take map length].
      rewrite Hout, <- !app_assoc in *. cbn [app] in *.
      split; [reflexivity|]. split; [lia|]. intros Hn. apply Hstop. lia.
    + apply Z.leb_gt in Hfit. exists 0%nat. cbn [firstn map length].
      rewrite app_nil_r. split; [reflexivity|]. split; [lia|]. intros _.
      rewrite sum_len_app, Hcur, take_0. cbn [sum_len fold_right map]. lia.
Qed.

(** X9: [get_relevant_context] joins the blocks of the longest prefix of
    the search results whose cumulative length fits the budget: it stops at
    the first block that does not fit and never skips to a later one; it is
    empty when the search is; for a non-negative budget the output exceeds
    it by at most the four separators. *)
Theorem get_relevant_context_greedy env m q L :
  let results := search env m q 5 (Q2Qc (3 # 10)) in
  let out := get_relevant_context env m q L in
  (results = [] -> out = "") /\
  exists n,
    out = Py.join (Py.LF +:+ Py.LF) (map context_block (take n results)) /\
    sum_len (map context_block (take n results)) <= Z.max L 0 /\
    ((n < length results)%nat ->
     L < sum_len (map context_block (take (S n) results))) /\
    (0 <= L -> Py.len out <= L + 8).
Proof.
  intros results out.
  assert (Hjoin : out = Py.join (Py.LF +:+ Py.LF) (pack_context L results [] 0)).
  { unfold out, get_relevant_context. fold results. destruct results; reflexivity. }
  split; [intros Hnil; rewrite Hjoin, Hnil; reflexivity|].
  pose proof (search_at_most_k env m q 5 (Q2Qc (3 # 10))) as Hk. fold results in Hk.
  destruct (pack_context_greedy L results [] 0 eq_refl) as (n & Hout & Hsum & Hstop).
  cbn [app] in *. exists n. rewrite Hjoin, Hout. rewrite Hout in Hsum.
  split; [reflexivity|]. split; [exact Hsum|]. split; [exact Hstop|].
  intros HL. rewrite len_join. change (Py.len (Py.LF +:+ Py.LF)) with 2.
  rewrite length_map, length_take. lia.
Qed.

Lemma get_relevant_context_greedy_witness :
  Py.len (get_relevant_context toy_env (embedding_model rag_short) "q" 20) <= 20 + 8.
Proof.
  pose proof (get_relevant_context_greedy toy_env (embedding_model rag_short) "q" 20) as H.
  cbv zeta in H. destruct H as (_ & n & _ & _ & _ & H). apply H. lia.
Defined.

(** ** [get_stats] *)

Lemma run_lock_step env ops m disk :
  lock_step m -> disk_lock_step disk -> lock_step (fst (run env ops (m, disk))).
Proof.
  intros Hm Hd.
  apply (fold_left_invariant
           (fun w => lock_step (fst w) /\ disk_lock_step (snd w)) (step env) ops).
  - intros w o. apply step_lock_step.
  - now split.
Qed.

(** X10: the metadata keys reported by [get_stats] are exactly the keys
    that occur in some stored metadata map; after every sequence of store
    operations from a store in lock-step the reported number of documents
    is the reported index size. *)
Theorem get_stats_reports env ops m disk :
  (forall key, key ∈ metadata_keys (get_stats m) <->
               exists md, In md (metadata m) /\ is_Some (md !! key)) /\
  (lock_step m -> disk_lock_step disk ->
   let stats := get_stats (fst (run env ops (m, disk))) in
   total_documents stats = index_size stats).
Proof.
  split.
  - intros key. cbn [get_stats metadata_keys]. rewrite elem_of_union_list. split.
    + intros (X & HX & Hkey). apply list_elem_of_In, in_map_iff in HX as (md & <- & Hmd).
      apply list_elem_of_In, list_elem_of_filter in Hmd as [_ Hmd].
      exists md. split; [now apply list_elem_of_In | now apply elem_of_dom].
    + intros (md & Hmd & Hkey). exists (dom md). split; [|now apply elem_of_dom].
      apply list_elem_of_In, in_map_iff. exists md. split; [reflexivity|].
      apply list_elem_of_In, list_elem_of_filter. split; [|now apply list_elem_of_In].
      intros ->. destruct Hkey as [v Hv]. rewrite lookup_empty in Hv. discriminate.
  - intros Hm Hd. destruct (run_lock_step env ops m disk Hm Hd) as [Ht Hi].
    cbn. unfold Faiss.ntotal in *. lia.
Qed.

Lemma get_stats_reports_witness :
  let stats := get_stats (fst (run toy_env
                                 [OpAddDocuments static_docs; OpAddText "exam stress" None]
                                 (fresh_model, NoSnapshot))) in
  total_documents stats = index_size stats.
Proof.
  apply (get_stats_reports toy_env _ fresh_model NoSnapshot).
  - split; reflexivity.
  - exact I.
Defined.

(** ** The length and the emptiness of the retrieved context *)

(** X11: for a non-negative context length, [retrieve_knowledge] returns
    the default context or a string of at most the context length plus
    seven characters for each separator, of which there are fewer than
    [max_results]; through the module-level function, at most the context
    length plus 14. *)
Theorem retrieve_knowledge_length env rag q k L :
  0 <= L ->
  (fst (retrieve_knowledge env rag q k L) = _get_default_context q \/
   Py.len (fst (retrieve_knowledge env rag q k L)) <= L + 7 * Z.max 0 (k - 1)) /\
  (fst (module_retrieve_knowledge env rag q L) = _get_default_context q \/
   Py.len (fst (module_retrieve_knowledge env rag q L)) <= L + 14).
Proof.
  intros HL.
  assert (H : forall k',
             fst (retrieve_knowledge env rag q k' L) = _get_default_context q \/
             Py.len (fst (retrieve_knowledge env rag q k' L)) <= L + 7 * Z.max 0 (k' - 1)).
  { intros k'. unfold retrieve_knowledge.
    destruct (search env (embedding_model (lazy_load env rag)) q k' score_threshold)
      as [|r rs] eqn:Hs.
    - left. now rewrite (retrieve_try_empty _ _ _ _ _ Hs).
    - destruct (retrieve_try _ _ _ _ _) as [context|] eqn:Htry; [|now left].
      right. cbn [fst]. eapply packed_length_bound; [exact HL | | exact Htry].
      now rewrite Hs. }
  split; [apply H|]. unfold module_retrieve_knowledge. apply (H 3).
Qed.

Lemma retrieve_knowledge_length_witness :
  fst (module_retrieve_knowledge toy_env rag_priority "xyz" 1500)
    = _get_default_context "xyz" \/
  Py.len (fst (module_retrieve_knowledge toy_env rag_priority "xyz" 1500)) <= 1500 + 14.
Proof.
  apply (retrieve_knowledge_length toy_env rag_priority "xyz" 3 1500). lia.
Defined.

(** X12: with results at hand [retrieve_knowledge] can still return the
    empty string and not the default context: when the context length is
    not positive, and when the first block is longer than the context
    length while no more than 100 characters would remain for its text. *)
Theorem retrieve_knowledge_empty_output env rag q k L :
  let results := search env (embedding_model (lazy_load env rag)) q k score_threshold in
  let ordered := filter (fun r => is_crisis q r = true) results ++
                 filter (fun r => ~ is_crisis q r = true) results in
  results <> [] ->
  (L <= 0 -> fst (retrieve_knowledge env rag q k L) = "") /\
  (forall first rest info,
     ordered = first :: rest ->
     source_info (r_metadata first) = Ret info ->
     L < Py.len (info +:+ Py.LF +:+ Py.strip (r_text first)) ->
     L - Py.len info - 10 <= 100 ->
     fst (retrieve_knowledge env rag q k L) = "").
Proof.
  intros results ordered Hne.
  pose proof (retrieve_try_packs env (lazy_load env rag) q k L Hne) as Htry.
  cbv zeta in Htry. fold results in Htry. fold ordered in Htry.
  assert (Hnil : pack L ordered [] 0 = Ret [] ->
                 fst (retrieve_knowledge env rag q k L) = "").
  { intros Hp. unfold retrieve_knowledge. now rewrite Htry, Hp. }
  split.
  - intros HL. apply Hnil. destruct ordered; cbn [pack]; [reflexivity|].
    now replace (L <=? 0) with true by (symmetry; apply Z.leb_le; lia).
  - intros first rest info -> Hinfo Hlong Hroom. apply Hnil. cbn [pack].
    destruct (L <=? 0); [reflexivity|]. rewrite Hinfo. cbn [bind].
    replace (0 + _ <=? L) with false by (symmetry; apply Z.leb_gt; lia).
    now replace (100 <? L - 0 - Py.len info - 10) with false
      by (symmetry; apply Z.ltb_ge; lia).
Qed.

Lemma retrieve_knowledge_empty_output_witness :
  fst (retrieve_knowledge toy_env rag_priority "xyz" 3 0) = "" /\
  fst (retrieve_knowledge toy_env rag_priority "xyz" 3 20) = "".
Proof.
  pose proof (retrieve_knowledge_empty_output toy_env rag_priority "xyz" 3 0) as H0.
  pose proof (retrieve_knowledge_empty_output toy_env rag_priority "xyz" 3 20) as H1.
  cbv zeta in H0, H1.
  destruct H0 as [H0 _]; [vm_compute; discriminate|].
  destruct H1 as [_ H1]; [vm_compute; discriminate|].
  split; [apply H0; lia|].
  eapply H1; [vm_compute; reflexivity | vm_compute; reflexivity | vm_compute; reflexivity
             | vm_compute; discriminate].
Defined.



(** ** The shape of the packed blocks *)

Lemma len_take_exact n s :
  Z.of_nat n <= Py.len s -> Py.len (Py.take n s) = Z.of_nat n.
Proof.
  unfold Py.len. revert s. induction n as [|n IH]; intros [|c s]; cbn; try lia.
  intros H. specialize (IH s). lia.
Qed.

Lemma pack_shape L rs : forall parts cur out,
  pack L rs parts cur = Ret out ->
  exists n fulls last,
    out = parts ++ fulls ++ last /\
    Forall2 (fun r p => exists info,
               source_info (r_metadata r) = Ret info /\
               p = info +:+ Py.LF +:+ Py.strip (r_text r))
            (take n rs) fulls /\
    (last = [] \/
     exists r info cut,
       rs !! n = Some r /\ source_info (r_metadata r) = Ret info /\
       last = [info +:+ Py.LF +:+ (Py.take cut (Py.strip (r_text r)) +:+ "...")] /\
       100 < Z.of_nat cut < Py.len (Py.strip (r_text r)) /\
       Py.len (Py.take cut (Py.strip (r_text r))) = Z.of_nat cut).
Proof.
  induction rs as [|r rs IH]; intros parts cur out; cbn [pack].
  - intros [= <-]. exists 0%nat, [], []. rewrite app_nil_r.
    split; [reflexivity|]. split; [constructor | now left].
  - destruct (L <=? cur).
    { intros [= <-]. exists 0%nat, [], []. rewrite app_nil_r.
      split; [reflexivity|]. split; [constructor | now left]. }
    destruct (source_info (r_metadata r)) as [info|] eqn:Hinfo; [|discriminate].
    cbn [bind].
    destruct (cur + _ <=? L) eqn:Hfit.
    + intros (n & fulls & last & -> & Hfulls & Hlast)%IH.
      exists (S n), ((info +:+ Py.LF +:+ Py.strip (r_text r)) :: fulls), last.
      rewrite <- !app_assoc. split; [reflexivity|]. split.
      * cbn [take]. constructor; [|exact Hfulls]. exists info. now split.
      * exact Hlast.
    + apply Z.leb_gt in Hfit. rewrite !len_append in Hfit.
      change (Py.len Py.LF) with 1 in Hfit.
      destruct (100 <? _) eqn:Hroom.
      * apply Z.ltb_lt in Hroom. intros [= <-].
        eexists 0%nat, [], [_]. split; [reflexivity|]. split; [constructor|].
        right. exists r, info, (Z.to_nat (L - cur - Py.len info - 10)).
        split; [reflexivity|]. split; [exact Hinfo|]. split; [reflexivity|].
        pose proof (len_nonneg info). split; [lia|]. apply len_take_exact. lia.
      * intros [= <-]. exists 0%nat, [], []. rewrite app_nil_r.
        split; [reflexivity|]. split; [constructor | now left].
Qed.

(** X14: in a packed context every block but possibly the last is the
    whole formatted block of its result, in the packing order; a shortened
    block is the last one, ends with the ellipsis and carries a proper
    prefix of more than 100 characters of its text. *)
Theorem packed_blocks_shape env rag q k L context :
  let results := search env (embedding_model rag) q k score_threshold in
  let ordered := filter (fun r => is_crisis q r = true) results ++
                 filter (fun r => ~ is_crisis q r = true) results in
  results <> [] ->
  retrieve_try env rag q k L = Ret context ->
  exists n fulls last,
    context = Py.join SEPARATOR (fulls ++ last) /\
    Forall2 (fun r p => exists info,
               source_info (r_metadata r) = Ret info /\
               p = info +:+ Py.LF +:+ Py.strip (r_text r))
            (take n ordered) fulls /\
    (last = [] \/
     exists r info cut,
       ordered !! n = Some r /\ source_info (r_metadata r) = Ret info /\
       last = [info +:+ Py.LF +:+ (Py.take cut (Py.strip (r_text r)) +:+ "...")] /\
       100 < Z.of_nat cut < Py.len (Py.strip (r_text r)) /\
       Py.len (Py.take cut (Py.strip (r_text r))) = Z.of_nat cut).
Proof.
  intros results ordered Hne.
  rewrite (retrieve_try_packs env rag q k L Hne). fold results. fold ordered.
  destruct (pack L ordered [] 0) as [parts|] eqn:Hpack; [|discriminate].
  cbn [bind]. intros [= <-].
  destruct (pack_shape _ _ _ _ _ Hpack) as (n & fulls & last & -> & Hfulls & Hlast).
  exists n, fulls, last. now split.
Qed.

Lemma packed_blocks_shape_witness :
  exists n fulls last,
    fst (retrieve_knowledge toy_env rag_priority "xyz" 3 1500)
      = Py.join SEPARATOR (fulls ++ last) /\
    length fulls = n.
Proof.
  edestruct (packed_blocks_shape toy_env rag_priority "xyz" 3 1500)
    as (n & fulls & last & Hctx & Hfulls & _);
    [vm_compute; discriminate | vm_compute; reflexivity |].
  exists (length fulls), fulls, last. split; [|reflexivity].
  rewrite <- Hctx. vm_compute. reflexivity.
Defined.

(** ** A stored text is found again *)






Lemma scan_hits_extends_acc m thr hits : forall acc cands,
  scan_hits m thr hits acc = Ret cands -> exists more, cands = acc ++ more.
Proof.
  induction hits as [|[distance idx] hits IH]; cbn [scan_hits]; intros acc cands.
  - intros [= <-]. exists []. now rewrite app_nil_r.
  - destruct (_ && _); [|apply IH].
    destruct (num_leb _ _); [|apply IH].
    destruct (texts m !! _) as [t|]; [|discriminate].
    destruct (metadata m !! _) as [md|]; [|discriminate].
    intros (more & ->)%IH. rewrite <- app_assoc. eexists. reflexivity.
Qed.






